(** * The 3DTS loci-score parser (parser.py)

    A shallow embedding of [parser.py]: the line-counting helper
    [_inspect_file] and the generator [load_data], together with the
    Python string operations they call.

    Conventions of the embedding.
    - A Python [str] is a list of Unicode code points ([pystr]).
    - A Python [int] is a [Z]; a Python [float] that carries data (the
      score) is an IEEE binary64 value ([spec_float]); the floats of the
      progress estimate are the rationals they denote.
    - Exceptions are values of [exn]; code that can raise lives in the
      monad [M], which also threads the clock and the log.
    - A generator is a state ([gen]) and a resume function ([next]).
    - [Parser] is the program over files that open and decode, with the
      time left kept as a quotient; [Full] is the program with the
      errors of the file object and the range of [datetime.timedelta]. *)

From Stdlib Require Import List ZArith NArith QArith Qround Bool Lia String
  Ascii.
From Stdlib Require Import Floats.SpecFloat DecimalPos.
Import ListNotations.

Local Open Scope Z_scope.

(** ** Python strings *)

Module Str.

Definition pystr := list N.

(** The code points of a literal of plain Latin-1 characters. *)
Definition lit (s : string) : pystr :=
  map N_of_ascii (list_ascii_of_string s).

Definition eqb (a b : pystr) : bool :=
  if list_eq_dec N.eq_dec a b then true else false.

(** [str.isspace] for one code point: the Unicode whitespace of CPython. *)
Definition isspace (c : N) : bool :=
  ((0x09 <=? c) && (c <=? 0x0d) || (0x1c <=? c) && (c <=? 0x20)
   || (c =? 0x85) || (c =? 0xa0) || (c =? 0x1680)
   || (0x2000 <=? c) && (c <=? 0x200a)
   || (c =? 0x2028) || (c =? 0x2029) || (c =? 0x202f)
   || (c =? 0x205f) || (c =? 0x3000))%N.

Fixpoint lstrip (s : pystr) : pystr :=
  match s with
  | c :: s' => if isspace c then lstrip s' else s
  | [] => []
  end.

Definition rstrip (s : pystr) : pystr := rev (lstrip (rev s)).

(** [s.strip()] *)
Definition strip (s : pystr) : pystr := rstrip (lstrip s).

(** [s.startswith(p)] *)
Fixpoint startswith (s p : pystr) {struct p} : bool :=
  match p, s with
  | [], _ => true
  | _ :: _, [] => false
  | a :: p', c :: s' => (c =? a)%N && startswith s' p'
  end.

(** [s.split(sep)] for a non-empty separator: a left-to-right scan that
    cuts at every occurrence of [sep]; [skip] counts the characters of an
    occurrence that are still to be passed over. *)
Fixpoint split_from (sep : pystr) (skip : nat) (s : pystr) : list pystr :=
  match s with
  | [] => [[]]
  | c :: s' =>
      match skip with
      | S k => split_from sep k s'
      | O =>
          if startswith s sep
          then [] :: split_from sep (List.length sep - 1) s'
          else match split_from sep 0 s' with
               | f :: fs => (c :: f) :: fs
               | [] => [[c]]
               end
      end
  end.

Definition split (s sep : pystr) : list pystr := split_from sep 0 s.

(** [s.replace(old, new)] for a non-empty [old]: the occurrences found by
    a single left-to-right scan are replaced, none is searched for in the
    text already produced. *)
Fixpoint replace_from (old new : pystr) (skip : nat) (s : pystr) : pystr :=
  match s with
  | [] => []
  | c :: s' =>
      match skip with
      | S k => replace_from old new k s'
      | O =>
          if startswith s old
          then new ++ replace_from old new (List.length old - 1) s'
          else c :: replace_from old new 0 s'
      end
  end.

Definition replace (s old new : pystr) : pystr := replace_from old new 0 s.

(** "All occurrences of [old] removed", read position by position: a
    character is deleted exactly when it lies inside an occurrence of
    [old] in [s].  [inside] is the number of characters, from the current
    one on, that the occurrences begun earlier still cover. *)
Fixpoint without_from (old : pystr) (inside : nat) (s : pystr) : pystr :=
  match s with
  | [] => []
  | c :: s' =>
      let inside := if startswith s old
                    then Nat.max inside (List.length old) else inside in
      match inside with
      | O => c :: without_from old 0 s'
      | S k => without_from old k s'
      end
  end.

Definition without_occurrences (s old : pystr) : pystr :=
  without_from old 0 s.

(** [sep.join(parts)] *)
Fixpoint join (sep : pystr) (parts : list pystr) : pystr :=
  match parts with
  | [] => []
  | [p] => p
  | p :: ps => p ++ sep ++ join sep ps
  end.

(** [str(n)] for an [int]: the decimal numeral. *)
Fixpoint uint_codes (u : Decimal.uint) : pystr :=
  match u with
  | Decimal.Nil => []
  | Decimal.D0 u => 48%N :: uint_codes u
  | Decimal.D1 u => 49%N :: uint_codes u
  | Decimal.D2 u => 50%N :: uint_codes u
  | Decimal.D3 u => 51%N :: uint_codes u
  | Decimal.D4 u => 52%N :: uint_codes u
  | Decimal.D5 u => 53%N :: uint_codes u
  | Decimal.D6 u => 54%N :: uint_codes u
  | Decimal.D7 u => 55%N :: uint_codes u
  | Decimal.D8 u => 56%N :: uint_codes u
  | Decimal.D9 u => 57%N :: uint_codes u
  end.

Definition str_of_int (n : Z) : pystr :=
  match n with
  | Z0 => [48%N]
  | Zpos p => uint_codes (Pos.to_uint p)
  | Zneg p => 45%N :: uint_codes (Pos.to_uint p)
  end.

End Str.

Import Str.

(** ** Reference readings of [int(str)] and [float(str)]

    The transformer is parametric in the two conversions (see
    [Section Transformer]); the functions below are the readings of
    CPython 3.11, used to run the model: the decimal digits of any
    script (Unicode 14.0), underscores between digits, surrounding
    whitespace, and for [int] the limit of 4300 digits. *)

Module Builtins.

(** The whitespace [int] and [float] skip around a numeral. *)
Definition numspace (c : N) : bool :=
  isspace c && negb ((0x1c <=? c) && (c <=? 0x1f))%N.

Fixpoint lskip (s : pystr) : pystr :=
  match s with
  | c :: s' => if numspace c then lskip s' else s
  | [] => []
  end.

Definition trim (s : pystr) : pystr := rev (lskip (rev (lskip s))).

(** The zero of each run of decimal digits (the characters of category
    [Nd]); the nine characters after it are its digits 1 to 9. *)
Definition decimal_zeros : list N :=
  [0x30; 0x660; 0x6f0; 0x7c0; 0x966; 0x9e6; 0xa66; 0xae6; 0xb66; 0xbe6;
    0xc66; 0xce6; 0xd66; 0xde6; 0xe50; 0xed0; 0xf20; 0x1040; 0x1090;
    0x17e0; 0x1810; 0x1946; 0x19d0; 0x1a80; 0x1a90; 0x1b50; 0x1bb0; 0x1c40;
    0x1c50; 0xa620; 0xa8d0; 0xa900; 0xa9d0; 0xa9f0; 0xaa50; 0xabf0; 0xff10;
    0x104a0; 0x10d30; 0x11066; 0x110f0; 0x11136; 0x111d0; 0x112f0; 0x11450;
    0x114d0; 0x11650; 0x116c0; 0x11730; 0x118e0; 0x11950; 0x11c50; 0x11d50;
    0x11da0; 0x16a60; 0x16ac0; 0x16b50; 0x1d7ce; 0x1d7d8; 0x1d7e2; 0x1d7ec;
    0x1d7f6; 0x1e140; 0x1e2f0; 0x1e950; 0x1fbf0]%N.

(** The digit a character stands for. *)
Definition digit_value (c : N) : option Z :=
  match find (fun z => (z <=? c) && (c <? z + 10))%N decimal_zeros with
  | Some z => Some (Z.of_N (c - z))
  | None => None
  end.

Definition is_digit (c : N) : bool :=
  match digit_value c with Some _ => true | None => false end.

(** An underscore is accepted only between two digits. *)
Fixpoint underscores_ok (prev : N) (s : pystr) : bool :=
  match s with
  | [] => negb (prev =? 95)%N
  | c :: s' =>
      (if (c =? 95)%N then is_digit prev
       else negb (prev =? 95)%N || is_digit c)
      && underscores_ok c s'
  end.

Definition drop_underscores (s : pystr) : pystr :=
  filter (fun c => negb (c =? 95)%N) s.

(** Leading digits, most significant first, and the rest. *)
Fixpoint take_digits (s : pystr) : list Z * pystr :=
  match s with
  | c :: s' =>
      match digit_value c with
      | Some d => let '(ds, r) := take_digits s' in (d :: ds, r)
      | None => ([], s)
      end
  | [] => ([], [])
  end.

Definition number (ds : list Z) : Z :=
  fold_left (fun a d => 10 * a + d) ds 0.

(** An optional sign: [true] for minus. *)
Definition take_sign (s : pystr) : bool * pystr :=
  match s with
  | 43%N :: r => (false, r)
  | 45%N :: r => (true, r)
  | _ => (false, s)
  end.

(** [sys.get_int_max_str_digits()] *)
Definition MAX_STR_DIGITS : nat := 4300.

(** [int(s)]: [None] stands for [ValueError]. *)
Definition int_of_str (s : pystr) : option Z :=
  let s := trim s in
  if underscores_ok 0 s then
    let '(neg, r) := take_sign (drop_underscores s) in
    match take_digits r with
    | ((_ :: _) as ds, []) =>
        if (List.length ds <=? MAX_STR_DIGITS)%nat
        then Some (if neg then - number ds else number ds)
        else None
    | _ => None
    end
  else None.

Definition lower (c : N) : N :=
  if ((65 <=? c) && (c <=? 90))%N then (c + 32)%N else c.

(** The binary64 value nearest to [m * 10 ^ e], ties to even. *)
Definition round_decimal (neg : bool) (m e : Z) : spec_float :=
  match m with
  | Zpos p =>
      if 0 <=? e
      then binary_normalize 53 1024
             (if neg then - (m * 10 ^ e) else m * 10 ^ e) 0 neg
      else SFdiv 53 1024 (S754_finite neg p 0)
             (S754_finite false (Z.to_pos (10 ^ (- e))) 0)
  | _ => S754_zero neg
  end.

(** [float(s)]: [None] stands for [ValueError]. *)
Definition float_of_str (s : pystr) : option spec_float :=
  let s := trim s in
  if underscores_ok 0 s then
    let '(neg, r) := take_sign (drop_underscores s) in
    let word := map lower r in
    if eqb word (lit "inf") || eqb word (lit "infinity")
    then Some (S754_infinity neg)
    else if eqb word (lit "nan") then Some S754_nan
    else
      let '(ip, r1) := take_digits r in
      let '(fp, r2) := match r1 with
                       | 46%N :: t => take_digits t
                       | _ => ([], r1)
                       end in
      match ip ++ fp with
      | [] => None
      | ds =>
          let scale := - Z.of_nat (List.length fp) in
          match r2 with
          | [] => Some (round_decimal neg (number ds) scale)
          | c :: t =>
              if (lower c =? 101)%N then
                let '(eneg, t') := take_sign t in
                match take_digits t' with
                | ((_ :: _) as es, []) =>
                    Some (round_decimal neg (number ds)
                            ((if eneg then - number es else number es)
                             + scale))
                | _ => None
                end
              else None
          end
      end
  else None.

End Builtins.

Import Builtins.


(** ** Exceptions, the clock and the log *)

Module Py.

Inductive exn :=
| FileExistsError (msg : pystr)
| FileNotFoundError (path : pystr)
| ValueError
| ZeroDivisionError
| OverflowError
| UnicodeDecodeError
| OSError (strerror : pystr).

(** [isinstance(e, ValueError)]: [UnicodeDecodeError] is a subclass. *)
Definition is_ValueError (e : exn) : bool :=
  match e with
  | ValueError | UnicodeDecodeError => true
  | _ => false
  end.

Inductive result (A : Type) :=
| Ok (a : A)
| Raise (e : exn).
Arguments Ok {A} a.
Arguments Raise {A} e.

Inductive level := INFO | ERROR.

(** The messages [parser.py] hands to [_logger], one constructor per
    call site, with the values the format string interpolates. *)
Inductive message :=
| MsgFileNotFound (text : pystr)
| MsgStartCounting
| MsgTotalLines (n : Z)
| MsgStartReading (filename : pystr)
| MsgProgress (count : Z) (percent : Q) (nskipped : nat) (time_left : Q)
| MsgUnpackFailed (count : Z) (line : pystr)
| MsgGot (fields : list pystr)
| MsgCastFailed (count : Z)
| MsgCompleted (nskipped : nat) (file_lines : Z)
| MsgSkippedLine (stripped : pystr).

(** What the code reads and writes besides its arguments: the readings of
    [time.time()] (the [n]-th call returns [clock n]) and the log. *)
Record world := World {
  clock : nat -> Q;
  ticks : nat;
  log : list (level * message)
}.

Definition M (A : Type) : Type := world -> result A * world.

Definition ret {A} (a : A) : M A := fun w => (Ok a, w).

Definition raise {A} (e : exn) : M A := fun w => (Raise e, w).

Definition bind {A B} (m : M A) (k : A -> M B) : M B :=
  fun w =>
    match m w with
    | (Ok a, w') => k a w'
    | (Raise e, w') => (Raise e, w')
    end.

Notation "x <- m ;; k" := (bind m (fun x => k))
  (at level 61, m at next level, right associativity).
Notation "m ;;; k" := (bind m (fun _ => k))
  (at level 61, right associativity).

(** [try: body except ValueError: handler] *)
Definition try_except_ValueError {A} (body handler : M A) : M A :=
  fun w =>
    match body w with
    | (Raise e, w') => if is_ValueError e then handler w' else (Raise e, w')
    | r => r
    end.

Definition lift_option {A} (o : option A) : M A :=
  match o with
  | Some a => ret a
  | None => raise ValueError
  end.

(** [time.time()] *)
Definition time_time : M Q :=
  fun w => (Ok (clock w (ticks w)),
            World (clock w) (S (ticks w)) (log w)).

Definition emit (l : level) (m : message) : M unit :=
  fun w => (Ok tt, World (clock w) (ticks w) (log w ++ [(l, m)])).

(** [_logger.info] and [_logger.error] *)
Definition info : message -> M unit := emit INFO.
Definition error : message -> M unit := emit ERROR.

(** [a / b] on two [int]s *)
Definition truediv (a b : Z) : M Q :=
  if b =? 0 then raise ZeroDivisionError
  else ret (inject_Z a / inject_Z b)%Q.

(** [x / y] on two [float]s *)
Definition fdiv (x y : Q) : M Q :=
  if Qeq_bool y 0 then raise ZeroDivisionError
  else ret (x / y)%Q.

(** The objects the generator yields: dicts keep their insertion order. *)
#[local] Set Warnings "-register-all".
Inductive value :=
| VStr (s : pystr)
| VInt (n : Z)
| VFloat (x : spec_float)
| VList (items : list value)
| VDict (items : list (pystr * value)).

(** [os.path.join(a, b)] for a relative [b] (POSIX). *)
Definition path_join (a b : pystr) : pystr :=
  match rev a with
  | [] => b
  | c :: _ => if (c =? 47)%N then a ++ b else a ++ 47%N :: b
  end.

(** [enumerate(l)] *)
Fixpoint enumerate_from {A} (i : Z) (l : list A) : list (Z * A) :=
  match l with
  | [] => []
  | x :: l' => (i, x) :: enumerate_from (i + 1) l'
  end.

Definition enumerate {A} (l : list A) : list (Z * A) := enumerate_from 0 l.

(** The target of a nine-name tuple assignment. *)
Definition row : Type :=
  pystr * pystr * pystr * pystr * pystr * pystr * pystr * pystr * pystr.

Definition as_row (l : list pystr) : option row :=
  match l with
  | [a; b; c; d; e; f; g; h; i] => Some (a, b, c, d, e, f, g, h, i)
  | _ => None
  end.

(** [(a, ..., i) = l]: a list of any other length raises [ValueError]. *)
Definition unpack9 (l : list pystr) : M row := lift_option (as_row l).

End Py.

Import Py.

(** ** parser.py *)

Module Parser.

Definition FILE_NOT_FOUND_ERROR (path : pystr) : pystr :=
  lit "Cannot find input file: " ++ path.

Definition SOURCE_NAME : pystr := lit "3dts".
Definition FILENAME : pystr := lit "3dts_loci_scores.sorted.tsv".
Definition DELIMITER : pystr := [9%N].

(** The local variables of [load_data] that live across iterations. *)
Record frame := Frame {
  file_lines : Z;
  count : Z;
  skipped : list pystr;
  start_time : Q
}.

(** [skipped.append(line)] *)
Definition skipped_append (fr : frame) (line : pystr) : frame :=
  Frame (file_lines fr) (count fr) (skipped fr ++ [line]) (start_time fr).

(** [count += 1] *)
Definition tick (fr : frame) : frame :=
  Frame (file_lines fr) (count fr + 1) (skipped fr) (start_time fr).

(** A generator object of [load_data]: not yet started, suspended at the
    [yield] with its frame and the unread lines of the file, or finished. *)
Inductive gen :=
| Created (data_folder : pystr)
| Suspended (fr : frame) (file : list pystr)
| Finished.

(** What one [next(g)] gives the consumer. *)
Inductive outcome :=
| Yield (v : value)
| StopIteration
| Raised (e : exn).

(** The three ways an iteration ends in [continue], and the one way it
    reaches the [yield]. *)
Inductive skip_reason :=
| comment_or_blank
| field_count_mismatch
| type_coercion_failure.

Inductive classification :=
| Valid (record : value)
| Skipped (reason : skip_reason).

Section Transformer.

(** [int(s)] and [float(s)] on a [str]; [None] stands for [ValueError],
    the only exception either raises on a string. *)
Variable py_int : pystr -> option Z.
Variable py_float : pystr -> option spec_float.

(** The text files of the file system, by path, as the lines iteration
    over the open file produces.  Every file here opens and decodes; the
    files that do not are those of [Full]. *)
Variable fs : pystr -> option (list pystr).

(** [os.path.exists(path)] *)
Definition path_exists (path : pystr) : bool :=
  match fs path with Some _ => true | None => false end.

(** [open(path)] *)
Definition open (path : pystr) : M (list pystr) :=
  match fs path with
  | Some lines => ret lines
  | None => raise (FileNotFoundError path)
  end.

Definition _inspect_file (filename : pystr) : M Z :=
  info MsgStartCounting ;;;
  f <- open filename ;;
  let i := fold_left (fun _ il => fst il) (enumerate f) 0 in
  info (MsgTotalLines (i + 1)) ;;;
  ret (i + 1).

(** Lines 56-60: the progress estimate of one iteration, with the time
    left kept as the quotient of line 57 and the percentage as the
    product of line 60.  The [timedelta] built from the one, with its
    range, and the two decimals shown of the other are in
    [Full.progress]. *)
Definition progress (fr : frame) : M unit :=
  ratio <- truediv (count fr) (file_lines fr) ;;
  now <- time_time ;;
  time_left <- fdiv ((now - start_time fr) * (1 - ratio))%Q ratio ;;
  if count fr mod 10000 =? 0
  then info (MsgProgress (count fr) (ratio * 100)%Q
               (List.length (skipped fr)) time_left)
  else ret tt.

(** Lines 75-79: the casts of the second [try] block. *)
Definition cast (chrom start end_ score : pystr)
  : M (pystr * Z * Z * spec_float) :=
  let chrom := replace chrom (lit "chr") [] in
  start <- lift_option (py_int start) ;;
  end_ <- lift_option (py_int end_) ;;
  score <- lift_option (py_float score) ;;
  ret (chrom, start, end_, score).

(** Lines 85-106: the object built from a line that passed the casts. *)
Definition entry (chrom : pystr) (start end_ : Z) (score : spec_float)
    (pdb_id pdb_chain uniprot_feature_name pdb_residue_min
     pdb_residue_max : pystr) : value :=
  let _id := lit "chr" ++ chrom ++ lit ":g." ++ str_of_int start
             ++ lit "_" ++ str_of_int end_ in
  let variant :=
    VDict [ (lit "chrom", VStr chrom);
            (lit "start", VInt start);
            (lit "end", VInt end_);
            (lit "scores", VList [
               VDict [ (lit "score", VFloat score);
                       (lit "pdb_id", VStr pdb_id);
                       (lit "pdb_chain", VStr pdb_chain);
                       (lit "uniprot_feature_name",
                         VStr uniprot_feature_name);
                       (lit "pdb_residue_min", VStr pdb_residue_min);
                       (lit "pdb_residue_max", VStr pdb_residue_max) ] ]) ]
  in
  VDict [ (lit "_id", VStr _id); (SOURCE_NAME, variant) ].

(** Lines 62-106: what an iteration does with its line.  The result is
    the frame after it and the object yielded, if the iteration reaches
    the [yield]; [None] is an iteration ended by [continue]. *)
Definition transform (fr : frame) (line : pystr)
  : M (frame * option value) :=
  if startswith line (lit "#") || eqb (strip line) []
  then ret (skipped_append fr line, None)
  else
    unpacked <-
      try_except_ValueError
        (r <- unpack9 (split (strip line) DELIMITER) ;; ret (Some r))
        (error (MsgUnpackFailed (count fr) line) ;;;
         error (MsgGot (split (strip line) DELIMITER)) ;;;
         ret None) ;;
    match unpacked with
    | None => ret (skipped_append fr line, None)
    | Some (chrom, start, end_, score, pdb_id, pdb_chain,
            uniprot_feature_name, pdb_residue_min, pdb_residue_max) =>
        casted <-
          try_except_ValueError
            (r <- cast chrom start end_ score ;; ret (Some r))
            (error (MsgCastFailed (count fr)) ;;; ret None) ;;
        match casted with
        | None => ret (skipped_append fr line, None)
        | Some (chrom, start, end_, score) =>
            ret (fr, Some (entry chrom start end_ score pdb_id pdb_chain
                             uniprot_feature_name pdb_residue_min
                             pdb_residue_max))
        end
    end.

(** Lines 55-106: one iteration of [for line in file]. *)
Definition body (fr : frame) (line : pystr) : M (frame * option value) :=
  let fr := tick fr in
  progress fr ;;;
  transform fr line.

(** Lines 107-109: what runs when the file is exhausted. *)
Fixpoint report_skipped (l : list pystr) : M unit :=
  match l with
  | [] => ret tt
  | x :: l' => info (MsgSkippedLine (strip x)) ;;; report_skipped l'
  end.

Definition epilogue (fr : frame) : M unit :=
  info (MsgCompleted (List.length (skipped fr)) (file_lines fr)) ;;;
  report_skipped (skipped fr).

(** Running the [for] loop from a frame and the unread lines, up to the
    next [yield], the end of the generator, or an exception. *)
Fixpoint resume (fr : frame) (file : list pystr) (w : world)
  : outcome * gen * world :=
  match file with
  | [] =>
      match epilogue fr w with
      | (Ok _, w') => (StopIteration, Finished, w')
      | (Raise e, w') => (Raised e, Finished, w')
      end
  | line :: rest =>
      match body fr line w with
      | (Ok (fr', Some v), w') => (Yield v, Suspended fr' rest, w')
      | (Ok (fr', None), w') => resume fr' rest w'
      | (Raise e, w') => (Raised e, Finished, w')
      end
  end.

(** Lines 41-53: from the call to the first iteration. *)
Definition prologue (data_folder : pystr) : M (frame * list pystr) :=
  let input_file := path_join data_folder FILENAME in
  if negb (path_exists input_file)
  then error (MsgFileNotFound (FILE_NOT_FOUND_ERROR input_file)) ;;;
       raise (FileExistsError (FILE_NOT_FOUND_ERROR input_file))
  else
    file_lines <- _inspect_file input_file ;;
    file <- open input_file ;;
    info (MsgStartReading FILENAME) ;;;
    start_time <- time_time ;;
    ret (Frame file_lines 0 [] start_time, file).

(** The lines of the file [load_data(data_folder)] reads, none if the
    file is missing. *)
Definition input_lines (data_folder : pystr) : list pystr :=
  match fs (path_join data_folder FILENAME) with
  | Some lines => lines
  | None => []
  end.

(** [load_data(data_folder)] only creates the generator. *)
Definition load_data (data_folder : pystr) : gen := Created data_folder.

(** [next(g)] *)
Definition next (g : gen) (w : world) : outcome * gen * world :=
  match g with
  | Created data_folder =>
      match prologue data_folder w with
      | (Ok (fr, file), w') => resume fr file w'
      | (Raise e, w') => (Raised e, Finished, w')
      end
  | Suspended fr file => resume fr file w
  | Finished => (StopIteration, Finished, w)
  end.

(** A consumer that pulls until the generator ends, as [list(g)] or a
    [for] loop does: the objects received, how the generator ended, and
    the world left.  [None] is for too little fuel. *)
Fixpoint consume (fuel : nat) (g : gen) (w : world)
  : option (list value * outcome * world) :=
  match fuel with
  | O => None
  | S fuel' =>
      match next g w with
      | (Yield v, g', w') =>
          match consume fuel' g' w' with
          | Some (vs, o, w'') => Some (v :: vs, o, w'')
          | None => None
          end
      | (o, _, w') => Some ([], o, w')
      end
  end.

(** *** The iteration as a function of the line

    What [body] does with a line, read off its branches: the branch taken
    and the object yielded depend on the line alone. *)

Definition classify (line : pystr) : classification :=
  if startswith line (lit "#") || eqb (strip line) []
  then Skipped comment_or_blank
  else
    match as_row (split (strip line) DELIMITER) with
    | None => Skipped field_count_mismatch
    | Some (chrom, start, end_, score, pdb_id, pdb_chain,
            uniprot_feature_name, pdb_residue_min, pdb_residue_max) =>
        match py_int start, py_int end_, py_float score with
        | Some start, Some end_, Some score =>
            Valid (entry (replace chrom (lit "chr") []) start end_ score
                     pdb_id pdb_chain uniprot_feature_name pdb_residue_min
                     pdb_residue_max)
        | _, _, _ => Skipped type_coercion_failure
        end
    end.

(** The [_logger.error] calls of the [except] clause a line ends in,
    [n] being the line's number. *)
Definition diagnostics (n : Z) (line : pystr) : list (level * message) :=
  match classify line with
  | Skipped field_count_mismatch =>
      [ (ERROR, MsgUnpackFailed n line);
        (ERROR, MsgGot (split (strip line) DELIMITER)) ]
  | Skipped type_coercion_failure => [ (ERROR, MsgCastFailed n) ]
  | _ => []
  end.

(** The object an iteration yields, if any. *)
Definition yielded (line : pystr) : option value :=
  match classify line with
  | Valid v => Some v
  | Skipped _ => None
  end.

(** The frame an iteration leaves. *)
Definition step (fr : frame) (line : pystr) : frame :=
  match classify line with
  | Valid _ => tick fr
  | Skipped _ => skipped_append (tick fr) line
  end.

(** The objects of the valid lines of a file, in file order. *)
Fixpoint emitted (file : list pystr) : list value :=
  match file with
  | [] => []
  | line :: rest =>
      match classify line with
      | Valid v => v :: emitted rest
      | Skipped _ => emitted rest
      end
  end.

(** The lines of a file that are not valid, in file order. *)
Fixpoint passed_over (file : list pystr) : list pystr :=
  match file with
  | [] => []
  | line :: rest =>
      match classify line with
      | Valid _ => passed_over rest
      | Skipped _ => line :: passed_over rest
      end
  end.

End Transformer.

(** The log of the epilogue for a list of skipped lines. *)
Definition summary (file_lines : Z) (skipped : list pystr)
  : list (level * message) :=
  (INFO, MsgCompleted (List.length skipped) file_lines)
  :: map (fun x => (INFO, MsgSkippedLine (strip x))) skipped.

(** [w] with more written to the log. *)
Definition say (msgs : list (level * message)) (w : world) : world :=
  World (clock w) (ticks w) (log w ++ msgs).

(** The world the progress estimate of an iteration leaves. *)
Definition progressed (fr : frame) (w : world) : world :=
  snd (progress fr w).

(** The frames [load_data] can be in: [_inspect_file] returned at least
    one and [count] started from zero. *)
Definition frame_ok (fr : frame) : Prop :=
  1 <= file_lines fr /\ 0 <= count fr.

Definition gen_ok (g : gen) : Prop :=
  match g with
  | Suspended fr _ => frame_ok fr
  | _ => True
  end.

End Parser.

Import Parser.

(** ** A sample file system *)

Module Sample.

Definition tsv (fields : list string) : pystr :=
  join DELIMITER (map lit fields) ++ [10%N].

Open Scope string_scope.

Definition good : pystr :=
  tsv ["chr1"; "100"; "200"; "0.5"; "PDB1"; "A"; "featX"; "10"; "20"].
Definition comment : pystr := (lit "#comment" ++ [10%N])%list.
Definition blank : pystr := [10%N].
Definition not_a_number : pystr :=
  tsv ["chr1"; "100"; "200"; "NOTANUM"; "PDB1"; "A"; "featX"; "10"; "20"].
Definition eight_fields : pystr :=
  tsv ["chr1"; "100"; "200"; "0.5"; "PDB1"; "A"; "featX"; "10"].
Definition ten_fields : pystr :=
  tsv ["chr1"; "100"; "200"; "0.5"; "PDB1"; "A"; "featX"; "10"; "20"; "x"].
(** A line of nine good fields behind a leading ['#']. *)
Definition hash_first : pystr :=
  tsv ["#1"; "100"; "200"; "0.5"; "PDB1"; "A"; "featX"; "10"; "20"].
(** Nine fields as read, the first of them empty: the line begins with
    a tab. *)
Definition leading_tab : pystr :=
  tsv [""; "100"; "200"; "0.5"; "PDB1"; "A"; "featX"; "10"; "20"].
(** A line of nine good fields whose ['#'] comes after a space. *)
Definition indented_hash : pystr :=
  tsv [" #x"; "1"; "2"; "0.5"; "P"; "A"; "f"; "1"; "2"].
(** Nine fields the last of which is empty: the line ends with a tab. *)
Definition trailing_tab : pystr :=
  tsv ["chr1"; "100"; "200"; "0.5"; "PDB1"; "A"; "featX"; "10"; ""].
(** Nine empty fields: eight tabs. *)
Definition only_tabs : pystr := tsv [""; ""; ""; ""; ""; ""; ""; ""; ""].
(** [chr] inside the chromosome field, and once more after removal. *)
Definition inner_chr : pystr :=
  tsv ["achrbcchrhr"; "7"; "-2"; "1e3"; "P"; "A"; "f"; "1"; "2"].
Definition second : pystr :=
  tsv ["chrX"; "5"; "6"; "2"; "PDB2"; "B"; "featY"; "1"; "2"].

Close Scope string_scope.

Definition file : list pystr :=
  [ comment; good; blank; not_a_number; eight_fields; second ].

(** One folder per sample file; any other folder has no input file. *)
Definition folders : list (pystr * list pystr) :=
  [ (lit "data", file);
    (lit "empty", []);
    (lit "hash", [hash_first]);
    (lit "lead", [leading_tab]);
    (lit "indent", [indented_hash]);
    (lit "tab", [trailing_tab]);
    (lit "tabs", [only_tabs]);
    (lit "inner", [inner_chr]) ].

Definition fs (path : pystr) : option (list pystr) :=
  option_map snd
    (find (fun d => eqb path (path_join (fst d) FILENAME)) folders).

(** A clock that advances one second per reading, and one that stands
    still at noon with something already in the log. *)
Definition w0 : world := World (fun n => inject_Z (Z.of_nat n)) 0 [].
Definition w1 : world :=
  World (fun _ => 43200%Q) 7 [(INFO, MsgStartCounting)].

Definition fr0 : frame := Frame 6 0 [] 0.

(** [list(load_data(folder))] with the reference conversions. *)
Definition run (folder : string) (w : world)
  : option (list value * outcome * world) :=
  consume int_of_str float_of_str fs 10 (load_data (lit folder)) w.

Definition records (r : option (list value * outcome * world))
  : option (list value) :=
  option_map (fun x => fst (fst x)) r.

(** What the consumer ends up with, once it has finished. *)
Definition result (r : option (list value * outcome * world))
  : list value * outcome * world :=
  match r with
  | Some x => x
  | None => ([], StopIteration, w0)
  end.

Definition final_log (r : option (list value * outcome * world))
  : option (list (level * message)) :=
  option_map (fun x => log (snd x)) r.

End Sample.

(** ** What a run leaves behind, and what a consumer reads *)

Module Run.

(** [version(self)] *)
Definition version {A : Type} (self : A) : pystr := lit "v5".

(** [d[key]] on a dict the generator built; [None] stands for
    [KeyError], and for an object that is not a dict. *)
Fixpoint lookup (key : pystr) (items : list (pystr * value))
  : option value :=
  match items with
  | [] => None
  | (k, v) :: items' => if eqb k key then Some v else lookup key items'
  end.

Definition getitem (d : option value) (key : pystr) : option value :=
  match d with
  | Some (VDict items) => lookup key items
  | _ => None
  end.

(** [doc['_id']] *)
Definition doc_id (doc : value) : option value :=
  getitem (Some doc) (lit "_id").

(** [(doc['3dts']['chrom'], doc['3dts']['start'], doc['3dts']['end'])] *)
Definition doc_locus (doc : value)
  : option value * option value * option value :=
  let variant := getitem (Some doc) SOURCE_NAME in
  (getitem variant (lit "chrom"), getitem variant (lit "start"),
   getitem variant (lit "end")).

(** The object an iteration hands to the consumer, if it returns with
    one. *)
Definition handed (r : result (frame * option value) * world)
  : option value :=
  match fst r with
  | Ok (_, out) => out
  | Raise _ => None
  end.

(** The characters of a decimal numeral: digits and the minus sign. *)
Definition numeral_char (c : N) : Prop :=
  c = 45%N \/ (48 <= c <= 57)%N.

(** The progress messages of a log. *)
Definition is_progress (e : level * message) : bool :=
  match snd e with
  | MsgProgress _ _ _ _ => true
  | _ => false
  end.

(** The messages of the closing report. *)
Definition is_report (e : level * message) : bool :=
  match snd e with
  | MsgCompleted _ _ | MsgSkippedLine _ => true
  | _ => false
  end.

(** A clock that never goes back. *)
Definition monotone (clock : nat -> Q) : Prop :=
  forall i j, (i <= j)%nat -> (clock i <= clock j)%Q.

Section Iterations.

Variable py_int : pystr -> option Z.
Variable py_float : pystr -> option spec_float.

(** The frame and the world after the iterations over [file], one after
    the other, as [resume] chains them. *)
Fixpoint after_lines (fr : frame) (file : list pystr) (w : world)
  : frame * world :=
  match file with
  | [] => (fr, w)
  | line :: rest =>
      match body py_int py_float fr line w with
      | (Ok (fr', _), w') => after_lines fr' rest w'
      | (Raise _, w') => (fr, w')
      end
  end.

End Iterations.

(** More sample lines. *)
Definition plain : pystr :=
  Sample.tsv
    ["1"; "100"; "200"; "0.5"; "PDB1"; "A"; "featX"; "10"; "20"]%string.

(** [Sample.good] without its newline, behind two spaces and before a
    carriage return. *)
Definition padded : pystr :=
  lit "  " ++ join DELIMITER
                (map lit ["chr1"; "100"; "200"; "0.5"; "PDB1"; "A"; "featX";
                          "10"; "20"]%string)
  ++ [13%N; 10%N].

End Run.

(** ** parser.py with a file that can fail and a bounded [timedelta]

    [Parser] reads files that open and decode, and keeps the estimate of
    line 57 as the quotient it is.  Here [open] and the iteration over
    the file can raise, and line 57 builds a [datetime.timedelta], whose
    range ends at 999999999 days.  Lines 62-106 are [Parser.transform]
    unchanged.  Floats are read as the rationals they denote. *)

Module Full.

(** What is found at a path: whether [open] raises there (a directory,
    a file that may not be read), the lines the iteration over the open
    file gives, and whether the iteration then raises instead of ending
    (bytes that are not text in the encoding, an error of the device). *)
Record file := File {
  open_error : option exn;
  content : list pystr;
  read_error : option exn
}.

(** The nearest integer, the even one of two at the same distance. *)
Definition round_half_even (x : Q) : Z :=
  let f := Qfloor x in
  match (x - inject_Z f ?= 1 # 2)%Q with
  | Lt => f
  | Gt => f + 1
  | Eq => if Z.even f then f else f + 1
  end.

(** [f'{x:.2f}'], as the number the text denotes. *)
Definition fixed2 (x : Q) : Q := round_half_even (x * 100) # 100.

Definition MAX_DELTA_DAYS : Z := 999999999.

(** The microseconds [datetime.timedelta(seconds=x)] keeps of [x]. *)
Definition microseconds (seconds : Q) : Z :=
  round_half_even (seconds * 1000000).

(** The durations a [timedelta] can hold: those whose whole days, counted
    downwards, are within [MAX_DELTA_DAYS] either way. *)
Definition in_range (seconds : Q) : bool :=
  let days := microseconds seconds / 86400000000 in
  (- MAX_DELTA_DAYS <=? days) && (days <=? MAX_DELTA_DAYS).

(** [datetime.timedelta(seconds=x)], in microseconds. *)
Definition timedelta (seconds : Q) : M Z :=
  if in_range seconds then ret (microseconds seconds)
  else raise OverflowError.

(** [str(time_left)], as the seconds the text denotes. *)
Definition str_of_timedelta (us : Z) : Q := us # 1000000.

(** A generator object of [load_data]; suspended, it holds the unread
    lines of its file and what the iteration does after the last one. *)
Inductive gen :=
| Created (data_folder : pystr)
| Suspended (fr : frame) (unread : list pystr) (ending : option exn)
| Finished.

Section Transformer.

Variable py_int : pystr -> option Z.
Variable py_float : pystr -> option spec_float.

(** What there is at each path. *)
Variable disk : pystr -> option file.

(** [os.path.exists(path)] *)
Definition path_exists (path : pystr) : bool :=
  match disk path with Some _ => true | None => false end.

(** [open(path)] *)
Definition open (path : pystr) : M file :=
  match disk path with
  | None => raise (FileNotFoundError path)
  | Some f =>
      match open_error f with
      | Some e => raise e
      | None => ret f
      end
  end.

(** Lines 22-29: the loop runs through [content f], and the iteration
    may raise where it would have ended. *)
Definition _inspect_file (filename : pystr) : M Z :=
  info MsgStartCounting ;;;
  f <- open filename ;;
  let i := fold_left (fun _ il => fst il) (enumerate (content f)) 0 in
  match read_error f with
  | Some e => raise e
  | None =>
      info (MsgTotalLines (i + 1)) ;;;
      ret (i + 1)
  end.

(** Lines 56-60. *)
Definition progress (fr : frame) : M unit :=
  ratio <- truediv (count fr) (file_lines fr) ;;
  now <- time_time ;;
  seconds <- fdiv ((now - start_time fr) * (1 - ratio))%Q ratio ;;
  time_left <- timedelta seconds ;;
  if count fr mod 10000 =? 0
  then info (MsgProgress (count fr) (fixed2 (ratio * 100))
               (List.length (skipped fr)) (str_of_timedelta time_left))
  else ret tt.

(** Lines 55-106: one iteration of [for line in file]. *)
Definition body (fr : frame) (line : pystr) : M (frame * option value) :=
  let fr := tick fr in
  progress fr ;;;
  transform py_int py_float fr line.

(** Running the [for] loop up to the next [yield], the end of the
    generator, or an exception. *)
Fixpoint resume (fr : frame) (unread : list pystr) (ending : option exn)
    (w : world) : outcome * gen * world :=
  match unread with
  | [] =>
      match ending with
      | Some e => (Raised e, Finished, w)
      | None =>
          match epilogue fr w with
          | (Ok _, w') => (StopIteration, Finished, w')
          | (Raise e, w') => (Raised e, Finished, w')
          end
      end
  | line :: rest =>
      match body fr line w with
      | (Ok (fr', Some v), w') => (Yield v, Suspended fr' rest ending, w')
      | (Ok (fr', None), w') => resume fr' rest ending w'
      | (Raise e, w') => (Raised e, Finished, w')
      end
  end.

(** Lines 41-53. *)
Definition prologue (data_folder : pystr) : M (frame * file) :=
  let input_file := path_join data_folder FILENAME in
  if negb (path_exists input_file)
  then error (MsgFileNotFound (FILE_NOT_FOUND_ERROR input_file)) ;;;
       raise (FileExistsError (FILE_NOT_FOUND_ERROR input_file))
  else
    file_lines <- _inspect_file input_file ;;
    file <- open input_file ;;
    info (MsgStartReading FILENAME) ;;;
    start_time <- time_time ;;
    ret (Frame file_lines 0 [] start_time, file).

Definition load_data (data_folder : pystr) : gen := Created data_folder.

(** [next(g)] *)
Definition next (g : gen) (w : world) : outcome * gen * world :=
  match g with
  | Created data_folder =>
      match prologue data_folder w with
      | (Ok (fr, file), w') => resume fr (content file) (read_error file) w'
      | (Raise e, w') => (Raised e, Finished, w')
      end
  | Suspended fr unread ending => resume fr unread ending w
  | Finished => (StopIteration, Finished, w)
  end.

(** A consumer that pulls until the generator ends; [None] is for too
    little fuel. *)
Fixpoint consume (fuel : nat) (g : gen) (w : world)
  : option (list value * outcome * world) :=
  match fuel with
  | O => None
  | S fuel' =>
      match next g w with
      | (Yield v, g', w') =>
          match consume fuel' g' w' with
          | Some (vs, o, w'') => Some (v :: vs, o, w'')
          | None => None
          end
      | (o, _, w') => Some ([], o, w')
      end
  end.

End Transformer.

(** The seconds line 57 hands to [timedelta] at line [count] of
    [file_lines], [now] being the reading of the clock. *)
Definition seconds_left (start_time now : Q) (count file_lines : Z) : Q :=
  let ratio := (inject_Z count / inject_Z file_lines)%Q in
  ((now - start_time) * (1 - ratio) / ratio)%Q.

(** The world [progress] leaves when it returns. *)
Definition progressed (fr : frame) (w : world) : world :=
  snd (progress fr w).

(** The next [n] iterations from the frame [fr], which read the clock
    at [t], [t + 1], ..., all estimate a time left that a [timedelta]
    can hold. *)
Fixpoint timely (clock : nat -> Q) (t : nat) (fr : frame) (n : nat)
  : bool :=
  match n with
  | O => true
  | S n' =>
      in_range (seconds_left (start_time fr) (clock t) (count fr + 1)
                  (file_lines fr))
      && timely clock (S t) (tick fr) n'
  end.

(** The same of a whole run over a file of [n] lines begun in [w]: the
    start time is the next reading of the clock, and [_inspect_file]
    counts one line where there is none. *)
Definition steady (w : world) (n : nat) : bool :=
  timely (clock w) (S (ticks w))
    (Frame (Z.max 1 (Z.of_nat n)) 0 [] (clock w (ticks w))) n.

(** A file of [Parser]: it opens and its iteration ends. *)
Definition readable (lines : list pystr) : file := File None lines None.

(** What can be expected of a progress message over a file counted as
    [total] lines: a line number within the file that is a multiple of
    ten thousand, the percentage of that line among the lines, to two
    decimals and from zero to a hundred, and fewer lines skipped than
    read. *)
Definition progress_sane (total : Z) (e : level * message) : Prop :=
  match snd e with
  | MsgProgress c percent k _ =>
      1 <= c <= total /\ c mod 10000 = 0 /\
      percent = fixed2 (inject_Z c / inject_Z total * 100) /\
      (0 <= percent)%Q /\ (percent <= 100)%Q /\ Z.of_nat k < c
  | _ => True
  end.

(** A progress message whose time left is not negative. *)
Definition estimate_nonneg (e : level * message) : Prop :=
  match snd e with
  | MsgProgress _ _ _ time_left => (0 <= time_left)%Q
  | _ => True
  end.

(** The progress message of line [c] of [total], read at [now] in a run
    begun at [start_time] that has skipped [k] lines. *)
Definition progress_message (start_time now : Q) (c total : Z) (k : nat)
  : level * message :=
  (INFO, MsgProgress c (fixed2 (inject_Z c / inject_Z total * 100)) k
           (str_of_timedelta
              (microseconds (seconds_left start_time now c total)))).

(** *** Sample files and clocks *)

(** A valid line followed by bytes that are not text. *)
Definition undecodable : file :=
  File None [Sample.good] (Some UnicodeDecodeError).

(** A directory under the name of the input file. *)
Definition directory : file :=
  File (Some (OSError (lit "Is a directory"))) [] None.

(** A hundred thousand lines, the first one valid. *)
Definition long : list pystr :=
  Sample.good :: repeat Sample.blank (Z.to_nat 99999).

(** Twenty thousand valid lines. *)
Definition plenty : list pystr := repeat Sample.good (Z.to_nat 20000).

Definition folders : list (pystr * file) :=
  [ (lit "data", readable Sample.file);
    (lit "undecodable", undecodable);
    (lit "directory", directory);
    (lit "long", readable long);
    (lit "plenty", readable plenty) ].

Definition sample_disk (path : pystr) : option file :=
  option_map snd
    (find (fun d => eqb path (path_join (fst d) FILENAME)) folders).

(** A clock set between the reading of line 53 and the first one of
    line 57: from the epoch to a day of 2026. *)
Definition set_clock : world :=
  World (fun n => match n with O => 0 | S _ => 1770000000 end)%Q 0 [].

End Full.

Import Run.

(** * Facts about the string operations *)

Section StringFacts.

Lemma eqb_eq (a b : pystr) : eqb a b = true <-> a = b.
Proof.
  unfold eqb. destruct (list_eq_dec N.eq_dec a b); split; congruence.
Qed.

Lemma eqb_neq (a b : pystr) : eqb a b = false <-> a <> b.
Proof.
  unfold eqb. destruct (list_eq_dec N.eq_dec a b); split; congruence.
Qed.

(** *** [split] on a one-character separator *)

Lemma split_sep (t : N) (s : pystr) : split (t :: s) [t] = [] :: split s [t].
Proof.
  unfold split. simpl. now rewrite N.eqb_refl.
Qed.

Lemma split_other (t c : N) (s : pystr) :
  c <> t ->
  split (c :: s) [t] =
  match split s [t] with
  | f :: fs => (c :: f) :: fs
  | [] => [[c]]
  end.
Proof.
  intros Hc. unfold split. simpl.
  destruct (N.eqb_spec c t) as [E | _]; [contradiction | reflexivity].
Qed.

Lemma split_length (t : N) (s : pystr) :
  List.length (split s [t]) = S (count_occ N.eq_dec s t).
Proof.
  induction s as [| c s IH]; [reflexivity |].
  destruct (N.eq_dec c t) as [-> | Hc].
  - rewrite split_sep. simpl. rewrite IH.
    destruct (N.eq_dec t t); congruence.
  - rewrite split_other by assumption. simpl.
    destruct (N.eq_dec c t); [contradiction |].
    destruct (split s [t]); simpl in *; congruence.
Qed.

Lemma join_split (t : N) (s : pystr) : join [t] (split s [t]) = s.
Proof.
  induction s as [| c s IH]; [reflexivity |].
  destruct (N.eq_dec c t) as [-> | Hc].
  - rewrite split_sep.
    assert (H : exists f fs, split s [t] = f :: fs).
    { pose proof (split_length t s) as L.
      destruct (split s [t]) as [| f fs]; [discriminate | eauto]. }
    destruct H as (f & fs & E). rewrite E in *. simpl in *. now rewrite IH.
  - rewrite split_other by assumption.
    destruct (split s [t]) as [| f [| g fs]]; simpl in *; congruence.
Qed.

Lemma join_snoc (t : N) (l : list pystr) (f x : pystr) :
  join [t] ((f :: l) ++ [x]) = join [t] (f :: l) ++ t :: x.
Proof.
  revert f. induction l as [| g l IH]; intros f; [reflexivity |].
  change (join [t] ((f :: g :: l) ++ [x]))
    with (f ++ [t] ++ join [t] ((g :: l) ++ [x])).
  rewrite IH. simpl. now rewrite <- app_assoc.
Qed.

(** *** [strip] *)

Lemma lstrip_count (t : N) (s : pystr) :
  (count_occ N.eq_dec (lstrip s) t <= count_occ N.eq_dec s t)%nat.
Proof.
  induction s as [| c s IH]; simpl; [lia |].
  destruct (isspace c); simpl; destruct (N.eq_dec c t); lia.
Qed.

Lemma count_occ_rev (t : N) (s : pystr) :
  count_occ N.eq_dec (rev s) t = count_occ N.eq_dec s t.
Proof.
  induction s as [| c s IH]; [reflexivity |].
  simpl. rewrite count_occ_app, IH. simpl.
  destruct (N.eq_dec c t); lia.
Qed.

Lemma strip_count (t : N) (s : pystr) :
  (count_occ N.eq_dec (strip s) t <= count_occ N.eq_dec s t)%nat.
Proof.
  unfold strip, rstrip. rewrite count_occ_rev.
  etransitivity; [apply lstrip_count |].
  rewrite count_occ_rev. apply lstrip_count.
Qed.

Lemma lstrip_spaces (s : pystr) : forallb isspace s = true -> lstrip s = [].
Proof.
  induction s as [| c s IH]; simpl; [reflexivity |].
  destruct (isspace c); simpl; [assumption | discriminate].
Qed.

Lemma lstrip_app (a b : pystr) :
  lstrip (a ++ b) = if forallb isspace a then lstrip b else lstrip a ++ b.
Proof.
  induction a as [| c a IH]; simpl; [reflexivity |].
  destruct (isspace c); simpl; [assumption | reflexivity].
Qed.

Lemma rstrip_app_spaces (a b : pystr) :
  forallb isspace b = true -> rstrip (a ++ b) = rstrip a.
Proof.
  intros Hb. unfold rstrip. rewrite rev_app_distr, lstrip_app.
  assert (E : forallb isspace (rev b) = true).
  { apply forallb_forall. intros x Hx. apply in_rev in Hx.
    rewrite forallb_forall in Hb. now apply Hb. }
  now rewrite E.
Qed.

(** Whitespace at the end of a string does not survive [strip]. *)
Lemma strip_app_spaces (a b : pystr) :
  forallb isspace b = true -> strip (a ++ b) = strip a.
Proof.
  intros Hb. unfold strip. rewrite lstrip_app.
  destruct (forallb isspace a) eqn:Ha.
  - now rewrite (lstrip_spaces b), (lstrip_spaces a).
  - now apply rstrip_app_spaces.
Qed.

(** *** [replace] of ["chr"] by the empty string *)

Lemma replace_chr_hit (s : pystr) :
  replace (lit "chr" ++ s) (lit "chr") [] = replace s (lit "chr") [].
Proof. reflexivity. Qed.

Lemma replace_chr_miss (c : N) (s : pystr) :
  startswith (c :: s) (lit "chr") = false ->
  replace (c :: s) (lit "chr") [] = c :: replace s (lit "chr") [].
Proof.
  intros H. unfold replace. cbn [replace_from]. now rewrite H.
Qed.

Lemma replace_chr_app_le (n : nat) (a b : pystr) :
  (List.length a <= n)%nat ->
  replace (a ++ lit "chr" ++ b) (lit "chr") [] =
  replace a (lit "chr") [] ++ replace b (lit "chr") [].
Proof.
  revert a. induction n as [| n IH]; intros a Ha.
  - destruct a; [reflexivity | simpl in Ha; lia].
  - destruct a as [| c1 a1]; [reflexivity |].
    assert (IH1 : replace (a1 ++ lit "chr" ++ b) (lit "chr") [] =
                  replace a1 (lit "chr") [] ++ replace b (lit "chr") []).
    { apply IH. simpl in Ha. lia. }
    destruct (startswith (c1 :: a1) (lit "chr")) eqn:Hp.
    + (* the occurrence lies inside [a] *)
      destruct a1 as [| c2 [| c3 a3]]; cbn in Hp;
        try (rewrite ?andb_false_r in Hp; discriminate).
      destruct (N.eqb_spec c1 99); [subst | discriminate].
      destruct (N.eqb_spec c2 104); [subst | discriminate].
      destruct (N.eqb_spec c3 114); [subst | discriminate].
      change (replace (lit "chr" ++ (a3 ++ lit "chr" ++ b)) (lit "chr") [] =
              replace (lit "chr" ++ a3) (lit "chr") []
              ++ replace b (lit "chr") []).
      rewrite !replace_chr_hit. apply IH. simpl in Ha. lia.
    + rewrite (replace_chr_miss c1 a1 Hp).
      change ((c1 :: a1) ++ lit "chr" ++ b)
        with (c1 :: (a1 ++ lit "chr" ++ b)).
      rewrite replace_chr_miss; [now rewrite IH1 |].
      destruct a1 as [| c2 [| c3 a3]]; cbn in Hp |- *.
      * destruct (N.eqb_spec c1 99); reflexivity.
      * destruct (N.eqb_spec c1 99); [| reflexivity].
        destruct (N.eqb_spec c2 104); reflexivity.
      * exact Hp.
Qed.

(** Every occurrence of ["chr"] is deleted, wherever it stands. *)
Lemma replace_chr_app (a b : pystr) :
  replace (a ++ lit "chr" ++ b) (lit "chr") [] =
  replace a (lit "chr") [] ++ replace b (lit "chr") [].
Proof. now apply (replace_chr_app_le (List.length a)). Qed.

(** A string without ["chr"] at any position is left as it is. *)
Lemma replace_chr_none (s : pystr) :
  (forall a b, s <> a ++ lit "chr" ++ b) ->
  replace s (lit "chr") [] = s.
Proof.
  induction s as [| c s IH]; intros H; [reflexivity |].
  rewrite replace_chr_miss.
  - f_equal. apply IH. intros a b E. apply (H (c :: a) b). now rewrite E.
  - destruct (startswith (c :: s) (lit "chr")) eqn:Hp; [| reflexivity].
    exfalso. destruct s as [| c2 [| c3 s3]]; cbn in Hp;
      try (rewrite ?andb_false_r in Hp; discriminate).
    destruct (N.eqb_spec c 99); [subst | discriminate].
    destruct (N.eqb_spec c2 104); [subst | discriminate].
    destruct (N.eqb_spec c3 114); [subst | discriminate].
    now apply (H [] s3).
Qed.

Lemma without_chr_hit (s : pystr) :
  without_occurrences (lit "chr" ++ s) (lit "chr") =
  without_occurrences s (lit "chr").
Proof. reflexivity. Qed.

Lemma without_chr_miss (c : N) (s : pystr) :
  startswith (c :: s) (lit "chr") = false ->
  without_occurrences (c :: s) (lit "chr") =
  c :: without_occurrences s (lit "chr").
Proof.
  intros H. unfold without_occurrences. cbn [without_from]. now rewrite H.
Qed.

Lemma startswith_chr (s : pystr) :
  startswith s (lit "chr") = true -> exists t, s = lit "chr" ++ t.
Proof.
  intros Hp. destruct s as [| c1 [| c2 [| c3 t]]]; cbn in Hp;
    try (rewrite ?andb_false_r in Hp; discriminate).
  destruct (N.eqb_spec c1 99); [subst | discriminate].
  destruct (N.eqb_spec c2 104); [subst | discriminate].
  destruct (N.eqb_spec c3 114); [subst | discriminate].
  now exists t.
Qed.

Lemma replace_chr_without_le (n : nat) (s : pystr) :
  (List.length s <= n)%nat ->
  replace s (lit "chr") [] = without_occurrences s (lit "chr").
Proof.
  revert s. induction n as [| n IH]; intros s Hs.
  - destruct s; [reflexivity | simpl in Hs; lia].
  - destruct s as [| c s]; [reflexivity |].
    destruct (startswith (c :: s) (lit "chr")) eqn:Hp.
    + destruct (startswith_chr _ Hp) as [t E]. rewrite E.
      rewrite replace_chr_hit, without_chr_hit. apply IH.
      apply (f_equal (@List.length N)) in E. simpl in E, Hs. lia.
    + rewrite replace_chr_miss, without_chr_miss by assumption.
      f_equal. apply IH. simpl in Hs. lia.
Qed.

(** For ["chr"], which cannot overlap itself, the scan of [replace]
    deletes exactly the characters that lie inside an occurrence. *)
Lemma replace_chr_without (s : pystr) :
  replace s (lit "chr") [] = without_occurrences s (lit "chr").
Proof. now apply (replace_chr_without_le (List.length s)). Qed.

Lemma as_row_length (l : list pystr) :
  as_row l <> None <-> List.length l = 9%nat.
Proof.
  split.
  - intros H.
    do 10 (destruct l as [| ? l]; [try (now elim H); try reflexivity |]).
    now elim H.
  - intros H.
    do 9 (destruct l as [| ? l]; [discriminate |]).
    destruct l; [discriminate | discriminate].
Qed.

End StringFacts.

(** * Facts about the transformer *)

Section Correctness.

Variable py_int : pystr -> option Z.
Variable py_float : pystr -> option spec_float.
Variable fs : pystr -> option (list pystr).

#[local] Set Warnings "-notation-for-abbreviation".
Local Notation cast := (cast py_int py_float).
Local Notation transform := (transform py_int py_float).
Local Notation body := (body py_int py_float).
Local Notation resume := (resume py_int py_float).
Local Notation classify := (classify py_int py_float).
Local Notation diagnostics := (diagnostics py_int py_float).
Local Notation yielded := (yielded py_int py_float).
Local Notation step := (step py_int py_float).
Local Notation emitted := (emitted py_int py_float).
Local Notation passed_over := (passed_over py_int py_float).
Local Notation _inspect_file := (_inspect_file fs).
Local Notation prologue := (prologue fs).
Local Notation next := (next py_int py_float fs).
Local Notation consume := (consume py_int py_float fs).
Local Notation input_lines := (input_lines fs).

Lemma say_nil (w : world) : say [] w = w.
Proof. destruct w. unfold say. simpl. now rewrite app_nil_r. Qed.

Lemma say_say (a b : list (level * message)) (w : world) :
  say b (say a w) = say (a ++ b) w.
Proof. unfold say. simpl. now rewrite app_assoc. Qed.

(** *** The progress estimate *)

Lemma ratio_nonzero (a b : Z) :
  a <> 0 -> b <> 0 -> Qeq_bool (inject_Z a / inject_Z b) 0 = false.
Proof.
  intros Ha Hb.
  destruct (Qeq_bool (inject_Z a / inject_Z b) 0) eqn:E; [| reflexivity].
  exfalso. apply Qeq_bool_eq in E.
  assert (Hb' : ~ (inject_Z b == 0)%Q).
  { unfold Qeq, inject_Z. simpl. lia. }
  pose proof (Qmult_div_r (inject_Z a) (inject_Z b) Hb') as D.
  rewrite E in D. unfold Qeq, inject_Z in D. simpl in D. lia.
Qed.

Lemma progress_ok (fr : frame) (w : world) :
  file_lines fr <> 0 -> count fr <> 0 ->
  progress fr w = (Ok tt, progressed fr w).
Proof.
  intros Hf Hc. unfold progressed, progress, bind, truediv, fdiv, time_time.
  destruct (Z.eqb_spec (file_lines fr) 0) as [E | _]; [contradiction |].
  cbn. rewrite (ratio_nonzero _ _ Hc Hf). cbn.
  destruct (count fr mod 10000 =? 0); reflexivity.
Qed.

Lemma progressed_log (fr : frame) (w : world) :
  exists msgs, log (progressed fr w) = log w ++ msgs.
Proof.
  unfold progressed, progress, bind, truediv, fdiv, time_time.
  destruct (file_lines fr =? 0); cbn; [exists []; now rewrite app_nil_r |].
  destruct (Qeq_bool _ 0); cbn; [exists []; now rewrite app_nil_r |].
  destruct (count fr mod 10000 =? 0); cbn;
    [eexists; reflexivity | exists []; now rewrite app_nil_r].
Qed.

Lemma frame_ok_tick (fr : frame) :
  frame_ok fr -> file_lines (tick fr) <> 0 /\ count (tick fr) <> 0.
Proof. unfold frame_ok, tick. simpl. lia. Qed.

Lemma frame_ok_step (fr : frame) (line : pystr) :
  frame_ok fr -> frame_ok (step fr line).
Proof.
  unfold frame_ok, step, skipped_append, tick.
  destruct (classify line); simpl; lia.
Qed.

(** *** One iteration *)

Lemma cast_spec (chrom start end_ score : pystr) (w : world) :
  cast chrom start end_ score w =
  match py_int start, py_int end_, py_float score with
  | Some s, Some e, Some x =>
      (Ok (replace chrom (lit "chr") [], s, e, x), w)
  | _, _, _ => (Raise ValueError, w)
  end.
Proof.
  unfold Parser.cast, bind, lift_option.
  destruct (py_int start), (py_int end_), (py_float score); reflexivity.
Qed.

(** What an iteration does with its line never raises; what it yields,
    the frame and the log it leaves are those read off the line by
    [classify]. *)
Lemma transform_classify (fr : frame) (line : pystr) (w : world) :
  transform (tick fr) line w =
  (Ok (step fr line, yielded line),
   say (diagnostics (count fr + 1) line) w).
Proof.
  unfold Parser.transform, Parser.step, Parser.yielded, Parser.diagnostics,
    Parser.classify.
  destruct (startswith line (lit "#") || eqb (strip line) []).
  { cbn. now rewrite say_nil. }
  unfold bind, try_except_ValueError, unpack9, lift_option.
  destruct (as_row (split (strip line) DELIMITER))
    as [[[[[[[[[chrom start] end_] score] a] b] c] d] e] |]; cbn.
  - rewrite cast_spec.
    destruct (py_int start), (py_int end_), (py_float score); cbn;
      rewrite ?say_nil; reflexivity.
  - unfold ret, say. cbn. now rewrite <- app_assoc.
Qed.

(** An iteration never raises; what it yields, the frame and the log it
    leaves are those read off the line by [classify]. *)
Lemma body_classify (fr : frame) (line : pystr) (w : world) :
  frame_ok fr ->
  body fr line w =
  (Ok (step fr line, yielded line),
   say (diagnostics (count fr + 1) line) (progressed (tick fr) w)).
Proof.
  intros Hok. destruct (frame_ok_tick fr Hok) as [Hf Hc].
  unfold Parser.body, bind.
  rewrite (progress_ok _ w Hf Hc).
  apply transform_classify.
Qed.

(** *** The loop *)

Lemma report_skipped_spec (l : list pystr) (w : world) :
  report_skipped l w =
  (Ok tt, say (map (fun x => (INFO, MsgSkippedLine (strip x))) l) w).
Proof.
  revert w. induction l as [| x l IH]; intros w; simpl.
  - now rewrite say_nil.
  - unfold bind, info, emit. rewrite IH. unfold say. simpl.
    now rewrite <- app_assoc.
Qed.

Lemma epilogue_spec (fr : frame) (w : world) :
  epilogue fr w = (Ok tt, say (summary (file_lines fr) (skipped fr)) w).
Proof.
  unfold epilogue, bind, info, emit. rewrite report_skipped_spec.
  unfold say, summary. simpl. now rewrite <- app_assoc.
Qed.

Lemma resume_nil (fr : frame) (w : world) :
  resume fr [] w =
  (StopIteration, Finished, say (summary (file_lines fr) (skipped fr)) w).
Proof. simpl. now rewrite epilogue_spec. Qed.

Lemma resume_cons (fr : frame) (line : pystr) (rest : list pystr)
    (w : world) :
  frame_ok fr ->
  resume fr (line :: rest) w =
  let w1 := say (diagnostics (count fr + 1) line) (progressed (tick fr) w) in
  match yielded line with
  | Some v => (Yield v, Suspended (step fr line) rest, w1)
  | None => resume (step fr line) rest w1
  end.
Proof.
  intros Hok. cbn [Parser.resume]. rewrite (body_classify fr line w Hok).
  destruct (yielded line); reflexivity.
Qed.

Lemma step_file_lines (fr : frame) (line : pystr) :
  file_lines (step fr line) = file_lines fr.
Proof. unfold Parser.step. now destruct (classify line). Qed.

Lemma step_skipped (fr : frame) (line : pystr) :
  skipped (step fr line) = skipped fr ++ passed_over [line].
Proof.
  unfold Parser.step. simpl. destruct (classify line); simpl;
    [now rewrite app_nil_r | reflexivity].
Qed.

Lemma passed_over_cons (line : pystr) (rest : list pystr) :
  passed_over (line :: rest) = passed_over [line] ++ passed_over rest.
Proof. simpl. now destruct (classify line). Qed.

Lemma emitted_cons (line : pystr) (rest : list pystr) :
  emitted (line :: rest) =
  match yielded line with
  | Some v => v :: emitted rest
  | None => emitted rest
  end.
Proof. unfold Parser.yielded. simpl. now destruct (classify line). Qed.

Lemma emitted_app (a b : list pystr) :
  emitted (a ++ b) = emitted a ++ emitted b.
Proof.
  induction a as [| line a IH]; [reflexivity |].
  simpl. destruct (classify line); simpl; now rewrite IH.
Qed.

Lemma passed_over_app (a b : list pystr) :
  passed_over (a ++ b) = passed_over a ++ passed_over b.
Proof.
  induction a as [| line a IH]; [reflexivity |].
  simpl. destruct (classify line); simpl; now rewrite IH.
Qed.

Lemma emitted_passed_over_length (file : list pystr) :
  (List.length (emitted file) + List.length (passed_over file)
   = List.length file)%nat.
Proof.
  induction file as [| line file IH]; [reflexivity |].
  simpl. destruct (classify line); simpl; lia.
Qed.

Lemma step_world (fr : frame) (line : pystr) (w : world) :
  let w1 := say (diagnostics (count fr + 1) line) (progressed (tick fr) w) in
  exists msgs, log w1 = log w ++ msgs.
Proof.
  destruct (progressed_log (tick fr) w) as [m Hm].
  exists (m ++ diagnostics (count fr + 1) line).
  unfold say. simpl. rewrite Hm. now rewrite app_assoc.
Qed.

(** Whatever fuel lets the consumer finish, it has received the objects
    of the valid lines, in order, and the generator has ended normally
    after reporting the other lines. *)
Lemma consume_suspended (file : list pystr) :
  forall fuel fr w vs o w',
    frame_ok fr ->
    consume fuel (Suspended fr file) w = Some (vs, o, w') ->
    vs = emitted file /\ o = StopIteration /\
    exists mid,
      log w' = log w ++ mid
               ++ summary (file_lines fr) (skipped fr ++ passed_over file).
Proof.
  induction file as [| line rest IH]; intros fuel fr w vs o w' Hok H;
    (destruct fuel as [| fuel]; [discriminate |]).
  - cbn [Parser.consume Parser.next] in H. rewrite resume_nil in H.
    injection H as <- <- <-. repeat split.
    exists []. simpl. now rewrite app_nil_r.
  - cbn [Parser.consume Parser.next] in H.
    rewrite (resume_cons fr line rest w Hok) in H. cbv zeta in H.
    rewrite emitted_cons, passed_over_cons, app_assoc, <- step_skipped,
      <- (step_file_lines fr line).
    destruct (step_world fr line w) as [m Hm].
    pose proof (frame_ok_step fr line Hok) as Hok'.
    destruct (yielded line) as [v |].
    + destruct (consume fuel _ _) as [[[vs0 o0] w0] |] eqn:E;
        [| discriminate].
      injection H as <- <- <-.
      destruct (IH _ _ _ _ _ _ Hok' E) as (-> & -> & mid & Hmid).
      repeat split. exists (m ++ mid).
      rewrite Hmid, Hm. now rewrite <- !app_assoc.
    + assert (E : consume (S fuel) (Suspended (step fr line) rest)
                    (say (diagnostics (count fr + 1) line)
                       (progressed (tick fr) w)) = Some (vs, o, w')).
      { cbn [Parser.consume Parser.next]. exact H. }
      destruct (IH _ _ _ _ _ _ Hok' E) as (-> & -> & mid & Hmid).
      repeat split. exists (m ++ mid).
      rewrite Hmid, Hm. now rewrite <- !app_assoc.
Qed.

(** One pull more than there are lines is fuel enough. *)
Lemma consume_suspended_total (file : list pystr) :
  forall fuel fr w,
    frame_ok fr -> (List.length file < fuel)%nat ->
    exists r, consume fuel (Suspended fr file) w = Some r.
Proof.
  induction file as [| line rest IH]; intros fuel fr w Hok Hfuel;
    (destruct fuel as [| fuel]; [simpl in Hfuel; lia |]).
  - cbn [Parser.consume Parser.next]. rewrite resume_nil. eauto.
  - cbn [Parser.consume Parser.next].
    rewrite (resume_cons fr line rest w Hok). cbv zeta.
    pose proof (frame_ok_step fr line Hok) as Hok'.
    simpl in Hfuel.
    destruct (yielded line) as [v |].
    + destruct (IH fuel (step fr line)
                  (say (diagnostics (count fr + 1) line)
                     (progressed (tick fr) w)) Hok') as [[[vs o] w'] E];
        [lia |].
      rewrite E. eauto.
    + destruct (IH (S fuel) (step fr line)
                  (say (diagnostics (count fr + 1) line)
                     (progressed (tick fr) w)) Hok') as [r E]; [lia |].
      cbn [Parser.consume Parser.next] in E. exists r. exact E.
Qed.

(** *** Counting the lines and starting up *)

Lemma last_index (A : Type) (l : list A) (k d : Z) :
  fold_left (fun (_ : Z) (il : Z * A) => fst il) (enumerate_from k l) d =
  match l with
  | [] => d
  | _ :: _ => k + Z.of_nat (List.length l) - 1
  end.
Proof.
  revert k d. induction l as [| x l IH]; intros k d; [reflexivity |].
  cbn [enumerate_from fold_left fst]. rewrite IH.
  destruct l; cbn [List.length]; lia.
Qed.

Lemma _inspect_file_spec (path : pystr) (lines : list pystr) (w : world) :
  fs path = Some lines ->
  let n := Z.max 1 (Z.of_nat (List.length lines)) in
  _inspect_file path w =
  (Ok n, say [(INFO, MsgStartCounting); (INFO, MsgTotalLines n)] w).
Proof.
  intros Hfs n. unfold Parser._inspect_file, bind, info, emit, open, enumerate.
  rewrite Hfs. cbn. rewrite last_index.
  assert (E : match lines with
              | [] => 0
              | _ :: _ => 0 + Z.of_nat (List.length lines) - 1
              end + 1 = n).
  { subst n. destruct lines; cbn [List.length]; lia. }
  rewrite E. unfold say. cbn. now rewrite <- app_assoc.
Qed.

Lemma prologue_found (folder : pystr) (lines : list pystr) (w : world) :
  fs (path_join folder FILENAME) = Some lines ->
  let n := Z.max 1 (Z.of_nat (List.length lines)) in
  prologue folder w =
  (Ok (Frame n 0 [] (clock w (ticks w)), lines),
   World (clock w) (S (ticks w))
     (log w ++ [(INFO, MsgStartCounting); (INFO, MsgTotalLines n);
                (INFO, MsgStartReading FILENAME)])).
Proof.
  intros Hfs n. unfold Parser.prologue, path_exists. rewrite Hfs. cbn [negb].
  unfold bind at 1. rewrite (_inspect_file_spec _ _ w Hfs).
  unfold bind, open, info, emit, time_time, say. rewrite Hfs. cbn.
  now rewrite <- app_assoc.
Qed.

Lemma prologue_missing (folder : pystr) (w : world) :
  fs (path_join folder FILENAME) = None ->
  let text := FILE_NOT_FOUND_ERROR (path_join folder FILENAME) in
  prologue folder w =
  (Raise (FileExistsError text), say [(ERROR, MsgFileNotFound text)] w).
Proof.
  intros Hfs text. unfold Parser.prologue, path_exists. rewrite Hfs.
  reflexivity.
Qed.

Lemma first_frame_ok (n : nat) (t : Q) :
  frame_ok (Frame (Z.max 1 (Z.of_nat n)) 0 [] t).
Proof. unfold frame_ok. simpl. lia. Qed.

(** The whole run, for any fuel that lets the consumer finish. *)
Lemma consume_load_data (folder : pystr) (fuel : nat) (w : world)
    (vs : list value) (o : outcome) (w' : world) :
  consume fuel (load_data folder) w = Some (vs, o, w') ->
  match fs (path_join folder FILENAME) with
  | None =>
      let text := FILE_NOT_FOUND_ERROR (path_join folder FILENAME) in
      vs = [] /\ o = Raised (FileExistsError text) /\
      w' = say [(ERROR, MsgFileNotFound text)] w
  | Some lines =>
      vs = emitted lines /\ o = StopIteration /\
      exists mid,
        log w' = log w ++ mid
                 ++ summary (Z.max 1 (Z.of_nat (List.length lines)))
                      (passed_over lines)
  end.
Proof.
  intros H. destruct fuel as [| fuel]; [discriminate |].
  destruct (fs (path_join folder FILENAME)) as [lines |] eqn:Hfs.
  - assert (E : consume (S fuel)
                  (Suspended (Frame (Z.max 1 (Z.of_nat (List.length lines)))
                                0 [] (clock w (ticks w))) lines)
                  (World (clock w) (S (ticks w))
                     (log w ++ [(INFO, MsgStartCounting);
                                (INFO, MsgTotalLines
                                   (Z.max 1 (Z.of_nat (List.length lines))));
                                (INFO, MsgStartReading FILENAME)]))
                = Some (vs, o, w')).
    { cbn [Parser.consume Parser.next Parser.load_data] in H |- *.
      rewrite (prologue_found folder lines w Hfs) in H. exact H. }
    destruct (consume_suspended _ _ _ _ _ _ _ (first_frame_ok _ _) E)
      as (-> & -> & mid & Hmid).
    split; [reflexivity | split; [reflexivity |]].
    cbn [log file_lines skipped] in Hmid. rewrite app_nil_l in Hmid.
    exists ([(INFO, MsgStartCounting);
             (INFO, MsgTotalLines (Z.max 1 (Z.of_nat (List.length lines))));
             (INFO, MsgStartReading FILENAME)] ++ mid).
    rewrite Hmid. now rewrite <- !app_assoc.
  - cbn [Parser.consume Parser.next Parser.load_data] in H.
    rewrite (prologue_missing folder w Hfs) in H. cbv zeta in H.
    now injection H as <- <- <-.
Qed.

Lemma consume_load_data_total (folder : pystr) (fuel : nat) (w : world) :
  (List.length (input_lines folder) < fuel)%nat ->
  exists r, consume fuel (load_data folder) w = Some r.
Proof.
  unfold Parser.input_lines. intros Hfuel.
  destruct fuel as [| fuel]; [lia |].
  cbn [Parser.consume Parser.next Parser.load_data].
  destruct (fs (path_join folder FILENAME)) as [lines |] eqn:Hfs.
  - rewrite (prologue_found folder lines w Hfs). cbv zeta.
    destruct (consume_suspended_total lines (S fuel)
                (Frame (Z.max 1 (Z.of_nat (List.length lines))) 0 []
                   (clock w (ticks w)))
                (World (clock w) (S (ticks w))
                   (log w ++ [(INFO, MsgStartCounting);
                              (INFO, MsgTotalLines
                                 (Z.max 1 (Z.of_nat (List.length lines))));
                              (INFO, MsgStartReading FILENAME)]))
                (first_frame_ok _ _) Hfuel) as [r E].
    cbn [Parser.consume Parser.next] in E. eauto.
  - rewrite (prologue_missing folder w Hfs). cbv zeta. eauto.
Qed.

(** *** The generator between two pulls *)

Lemma next_valid (fr : frame) (line : pystr) (rest : list pystr)
    (w : world) (v : value) :
  frame_ok fr -> classify line = Valid v ->
  next (Suspended fr (line :: rest)) w =
  (Yield v, Suspended (tick fr) rest, progressed (tick fr) w).
Proof.
  intros Hok Hc. cbn [Parser.next]. rewrite (resume_cons fr line rest w Hok).
  unfold Parser.yielded, Parser.step, Parser.diagnostics. rewrite Hc.
  cbv zeta. now rewrite say_nil.
Qed.

Lemma next_skipped (fr : frame) (line : pystr) (rest : list pystr)
    (w : world) (r : skip_reason) :
  frame_ok fr -> classify line = Skipped r ->
  next (Suspended fr (line :: rest)) w =
  next (Suspended (skipped_append (tick fr) line) rest)
    (say (diagnostics (count fr + 1) line) (progressed (tick fr) w)).
Proof.
  intros Hok Hc. cbn [Parser.next]. rewrite (resume_cons fr line rest w Hok).
  unfold Parser.yielded, Parser.step. now rewrite Hc.
Qed.

Lemma classify_comment (line : pystr) :
  strip line = [] \/ startswith line (lit "#") = true ->
  classify line = Skipped comment_or_blank.
Proof.
  intros H. unfold Parser.classify.
  destruct H as [H | H]; rewrite H; [| reflexivity].
  now rewrite orb_true_r.
Qed.

Lemma classify_mismatch (line : pystr) :
  startswith line (lit "#") = false -> strip line <> [] ->
  List.length (split (strip line) DELIMITER) <> 9%nat ->
  classify line = Skipped field_count_mismatch.
Proof.
  intros Hh Hb Hn. unfold Parser.classify. rewrite Hh.
  apply eqb_neq in Hb. rewrite Hb. cbn [orb].
  destruct (as_row (split (strip line) DELIMITER)) eqn:E; [| reflexivity].
  exfalso. apply Hn, as_row_length. congruence.
Qed.

Lemma classify_valid (line chrom start end_ score pdb_id pdb_chain
    uniprot_feature_name pdb_residue_min pdb_residue_max : pystr)
    (s e : Z) (x : spec_float) :
  startswith line (lit "#") = false ->
  split (strip line) DELIMITER =
    [chrom; start; end_; score; pdb_id; pdb_chain; uniprot_feature_name;
     pdb_residue_min; pdb_residue_max] ->
  py_int start = Some s -> py_int end_ = Some e ->
  py_float score = Some x ->
  classify line =
  Valid (entry (replace chrom (lit "chr") []) s e x pdb_id pdb_chain
           uniprot_feature_name pdb_residue_min pdb_residue_max).
Proof.
  intros Hh Hsplit Hs He Hx. unfold Parser.classify. rewrite Hh.
  destruct (eqb (strip line) []) eqn:Hb.
  - apply eqb_eq in Hb. rewrite Hb in Hsplit. discriminate.
  - cbn [orb]. rewrite Hsplit. cbn [as_row]. now rewrite Hs, He, Hx.
Qed.

(** A line with nine fields on paper whose last field is blank loses its
    last tab to [strip]. *)
Lemma blank_last_field (line f1 f2 f3 f4 f5 f6 f7 f8 f9 : pystr) :
  split line DELIMITER = [f1; f2; f3; f4; f5; f6; f7; f8; f9] ->
  forallb isspace f9 = true ->
  (List.length (split (strip line) DELIMITER) < 9)%nat.
Proof.
  intros Hsplit Hws. unfold DELIMITER in *.
  pose proof (join_split 9%N line) as J. rewrite Hsplit in J.
  change [f1; f2; f3; f4; f5; f6; f7; f8; f9]
    with ([f1; f2; f3; f4; f5; f6; f7; f8] ++ [f9]) in J.
  rewrite join_snoc in J.
  pose proof (split_length 9%N line) as L. rewrite Hsplit in L.
  cbn [List.length] in L.
  rewrite split_length.
  pose proof (strip_count 9%N (join [9%N] [f1; f2; f3; f4; f5; f6; f7; f8]))
    as C.
  rewrite <- J in L |- *.
  change (join [9%N] [f1; f2; f3; f4; f5; f6; f7; f8] ++ 9%N :: f9)
    with (join [9%N] [f1; f2; f3; f4; f5; f6; f7; f8] ++ (9%N :: f9))
    in L |- *.
  rewrite strip_app_spaces by (cbn [forallb]; now rewrite Hws).
  rewrite count_occ_app in L. cbn [count_occ] in L.
  destruct (N.eq_dec 9 9) as [_ | N]; [lia | now elim N].
Qed.

Lemma next_passes_over (skips : list pystr) :
  forall (fr : frame) (w : world) (rest : list pystr),
    frame_ok fr ->
    Forall (fun l => yielded l = None) skips ->
    exists fr' w',
      next (Suspended fr (skips ++ rest)) w = next (Suspended fr' rest) w' /\
      frame_ok fr' /\
      skipped fr' = skipped fr ++ skips /\
      count fr' = count fr + Z.of_nat (List.length skips).
Proof.
  induction skips as [| line skips IH]; intros fr w rest Hok Hall.
  - exists fr, w. cbn [List.length app]. rewrite app_nil_r.
    repeat split; try apply Hok. lia.
  - inversion Hall as [| ? ? Hline Hrest]; subst.
    unfold Parser.yielded in Hline.
    destruct (classify line) as [v | r] eqn:Hc; [discriminate |].
    assert (Hok' : frame_ok (skipped_append (tick fr) line)).
    { unfold frame_ok in *. simpl. lia. }
    destruct (IH (skipped_append (tick fr) line)
                (say (diagnostics (count fr + 1) line)
                   (progressed (tick fr) w)) rest Hok' Hrest)
      as (fr' & w' & Hn & Hok'' & Hsk & Hcnt).
    exists fr', w'. cbn [app].
    rewrite (next_skipped fr line (skips ++ rest) w r Hok Hc), Hn.
    repeat split; try apply Hok''.
    + rewrite Hsk. simpl. now rewrite <- app_assoc.
    + rewrite Hcnt. cbn [List.length]. simpl. lia.
Qed.

(** Every generator [load_data] can turn into keeps [gen_ok]. *)
Lemma resume_gen_ok (file : list pystr) :
  forall fr w, frame_ok fr -> gen_ok (snd (fst (resume fr file w))).
Proof.
  induction file as [| line rest IH]; intros fr w Hok.
  - now rewrite resume_nil.
  - rewrite (resume_cons fr line rest w Hok). cbv zeta.
    pose proof (frame_ok_step fr line Hok).
    destruct (yielded line); [assumption | now apply IH].
Qed.

Lemma next_gen_ok (g : gen) (w : world) :
  gen_ok g -> gen_ok (snd (fst (next g w))).
Proof.
  destruct g as [folder | fr file |]; intros Hok; cbn [Parser.next].
  - destruct (fs (path_join folder FILENAME)) as [lines |] eqn:Hfs.
    + rewrite (prologue_found folder lines w Hfs). cbv zeta.
      apply resume_gen_ok, first_frame_ok.
    + now rewrite (prologue_missing folder w Hfs).
  - now apply resume_gen_ok.
  - exact I.
Qed.

Lemma body_valid (fr : frame) (line : pystr) (w : world) (v : value) :
  frame_ok fr -> classify line = Valid v ->
  body fr line w = (Ok (tick fr, Some v), progressed (tick fr) w).
Proof.
  intros Hok Hc. rewrite (body_classify fr line w Hok).
  unfold Parser.yielded, Parser.step, Parser.diagnostics. rewrite Hc.
  now rewrite say_nil.
Qed.

Lemma body_skipped (fr : frame) (line : pystr) (w : world)
    (r : skip_reason) :
  frame_ok fr -> classify line = Skipped r ->
  body fr line w =
  (Ok (skipped_append (tick fr) line, None),
   say (diagnostics (count fr + 1) line) (progressed (tick fr) w)).
Proof.
  intros Hok Hc. rewrite (body_classify fr line w Hok).
  unfold Parser.yielded, Parser.step. now rewrite Hc.
Qed.

Lemma resume_never_raises (file : list pystr) :
  forall fr w e, frame_ok fr -> fst (fst (resume fr file w)) <> Raised e.
Proof.
  induction file as [| line rest IH]; intros fr w e Hok.
  - now rewrite resume_nil.
  - rewrite (resume_cons fr line rest w Hok). cbv zeta.
    destruct (yielded line); [discriminate |].
    apply IH, frame_ok_step, Hok.
Qed.

(** A pull raises only as the first pull on a missing file. *)
Lemma next_raised (g : gen) (w : world) (e : exn) :
  gen_ok g ->
  fst (fst (next g w)) = Raised e ->
  exists folder,
    g = Created folder /\
    fs (path_join folder FILENAME) = None /\
    e = FileExistsError (FILE_NOT_FOUND_ERROR (path_join folder FILENAME)).
Proof.
  intros Hok H. destruct g as [folder | fr file |].
  - exists folder. cbn [Parser.next] in H.
    destruct (fs (path_join folder FILENAME)) as [lines |] eqn:Hfs.
    + rewrite (prologue_found folder lines w Hfs) in H. cbv zeta in H.
      now apply resume_never_raises in H; [| apply first_frame_ok].
    + rewrite (prologue_missing folder w Hfs) in H. cbv zeta in H.
      cbn [fst] in H. injection H as <-. now repeat split.
  - cbn [Parser.next] in H. now apply resume_never_raises in H.
  - discriminate.
Qed.

Lemma emitted_flat_map (file : list pystr) :
  emitted file =
  flat_map (fun l => match yielded l with Some v => [v] | None => [] end)
    file.
Proof.
  induction file as [| line file IH]; [reflexivity |].
  rewrite emitted_cons. cbn [flat_map]. rewrite <- IH.
  now destruct (yielded line).
Qed.

Lemma passed_over_filter (file : list pystr) :
  passed_over file =
  filter (fun l => match yielded l with Some _ => false | None => true end)
    file.
Proof.
  induction file as [| line file IH]; [reflexivity |].
  unfold Parser.yielded in *. simpl.
  destruct (classify line); now rewrite IH.
Qed.

(** * The claims *)









End Correctness.

(** ** The file object and [datetime.timedelta]

    In this section [progress], [body], [resume], [prologue], [next] and
    [consume] are those of [Full]. *)

Section Errors.

Variable py_int : pystr -> option Z.
Variable py_float : pystr -> option spec_float.
Variable disk : pystr -> option Full.file.

#[local] Set Warnings "-notation-for-abbreviation".
Local Notation transform := (transform py_int py_float).
Local Notation classify := (classify py_int py_float).
Local Notation diagnostics := (diagnostics py_int py_float).
Local Notation yielded := (yielded py_int py_float).
Local Notation step := (step py_int py_float).
Local Notation emitted := (emitted py_int py_float).
Local Notation passed_over := (passed_over py_int py_float).
Local Notation body := (Full.body py_int py_float).
Local Notation resume := (Full.resume py_int py_float).
Local Notation _inspect_file := (Full._inspect_file disk).
Local Notation prologue := (Full.prologue disk).
Local Notation next := (Full.next py_int py_float disk).
Local Notation consume := (Full.consume py_int py_float disk).

(** *** One iteration *)

(** The estimate of an iteration is the only thing in it that can
    raise. *)
Lemma full_progress_spec (fr : frame) (w : world) :
  file_lines fr <> 0 -> count fr <> 0 ->
  Full.progress fr w =
  if Full.in_range (Full.seconds_left (start_time fr) (clock w (ticks w))
                      (count fr) (file_lines fr))
  then (Ok tt, Full.progressed fr w)
  else (Raise OverflowError, World (clock w) (S (ticks w)) (log w)).
Proof.
  intros Hf Hc.
  unfold Full.progressed, Full.progress, bind, truediv, fdiv, time_time,
    Full.timedelta, Full.seconds_left.
  destruct (Z.eqb_spec (file_lines fr) 0) as [E | _]; [contradiction |].
  cbn. rewrite (ratio_nonzero _ _ Hc Hf). cbn.
  destruct (Full.in_range _); cbn; [| reflexivity].
  destruct (count fr mod 10000 =? 0); reflexivity.
Qed.

Lemma full_progressed_exact (fr : frame) (w : world) :
  file_lines fr <> 0 -> count fr <> 0 ->
  let seconds := Full.seconds_left (start_time fr) (clock w (ticks w))
                   (count fr) (file_lines fr) in
  Full.in_range seconds = true ->
  Full.progressed fr w =
  World (clock w) (S (ticks w))
    (log w ++
     if count fr mod 10000 =? 0
     then [(INFO, MsgProgress (count fr)
                    (Full.fixed2 (inject_Z (count fr)
                                  / inject_Z (file_lines fr) * 100))
                    (List.length (skipped fr))
                    (Full.str_of_timedelta (Full.microseconds seconds)))]
     else []).
Proof.
  intros Hf Hc seconds Hr. subst seconds.
  unfold Full.progressed, Full.progress, bind, truediv, fdiv, time_time,
    Full.timedelta, Full.seconds_left in *.
  destruct (Z.eqb_spec (file_lines fr) 0) as [E | _]; [contradiction |].
  cbn. rewrite (ratio_nonzero _ _ Hc Hf). cbn. cbn in Hr. rewrite Hr. cbn.
  destruct (count fr mod 10000 =? 0); cbn; [reflexivity |].
  now rewrite app_nil_r.
Qed.

Lemma full_progressed_world (fr : frame) (w : world) :
  file_lines fr <> 0 -> count fr <> 0 ->
  clock (Full.progressed fr w) = clock w /\
  ticks (Full.progressed fr w) = S (ticks w) /\
  exists msgs, log (Full.progressed fr w) = log w ++ msgs.
Proof.
  intros Hf Hc.
  unfold Full.progressed, Full.progress, bind, truediv, fdiv, time_time,
    Full.timedelta.
  destruct (Z.eqb_spec (file_lines fr) 0) as [E | _]; [contradiction |].
  cbn. rewrite (ratio_nonzero _ _ Hc Hf). cbn.
  destruct (Full.in_range _); cbn;
    [| repeat split; exists []; now rewrite app_nil_r].
  destruct (count fr mod 10000 =? 0); cbn; repeat split;
    [eexists; reflexivity | exists []; now rewrite app_nil_r].
Qed.

(** An iteration raises only [OverflowError], and only from line 57;
    otherwise what it yields and the frame it leaves are those read off
    the line by [classify]. *)
Lemma full_body_spec (fr : frame) (line : pystr) (w : world) :
  frame_ok fr ->
  body fr line w =
  if Full.in_range (Full.seconds_left (start_time fr) (clock w (ticks w))
                      (count fr + 1) (file_lines fr))
  then (Ok (step fr line, yielded line),
        say (diagnostics (count fr + 1) line)
          (Full.progressed (tick fr) w))
  else (Raise OverflowError, World (clock w) (S (ticks w)) (log w)).
Proof.
  intros Hok. destruct (frame_ok_tick fr Hok) as [Hf Hc].
  unfold Full.body, bind.
  rewrite (full_progress_spec _ w Hf Hc).
  cbn [tick start_time count file_lines].
  destruct (Full.in_range _); [apply transform_classify | reflexivity].
Qed.

(** *** The loop *)

Lemma full_resume_nil (fr : frame) (ending : option exn) (w : world) :
  resume fr [] ending w =
  match ending with
  | Some e => (Raised e, Full.Finished, w)
  | None =>
      (StopIteration, Full.Finished,
       say (summary (file_lines fr) (skipped fr)) w)
  end.
Proof.
  cbn [Full.resume]. destruct ending; [reflexivity |].
  now rewrite epilogue_spec.
Qed.

Lemma full_resume_cons (fr : frame) (line : pystr) (rest : list pystr)
    (ending : option exn) (w : world) :
  frame_ok fr ->
  resume fr (line :: rest) ending w =
  if Full.in_range (Full.seconds_left (start_time fr) (clock w (ticks w))
                      (count fr + 1) (file_lines fr))
  then
    let w1 := say (diagnostics (count fr + 1) line)
                (Full.progressed (tick fr) w) in
    match yielded line with
    | Some v => (Yield v, Full.Suspended (step fr line) rest ending, w1)
    | None => resume (step fr line) rest ending w1
    end
  else (Raised OverflowError, Full.Finished,
        World (clock w) (S (ticks w)) (log w)).
Proof.
  intros Hok. cbn [Full.resume]. rewrite (full_body_spec fr line w Hok).
  destruct (Full.in_range _); [| reflexivity].
  destruct (yielded line); reflexivity.
Qed.

Lemma full_step_world (fr : frame) (line : pystr) (w : world) :
  frame_ok fr ->
  let w1 := say (diagnostics (count fr + 1) line)
              (Full.progressed (tick fr) w) in
  clock w1 = clock w /\ ticks w1 = S (ticks w) /\
  exists msgs, log w1 = log w ++ msgs.
Proof.
  intros Hok. destruct (frame_ok_tick fr Hok) as [Hf Hc].
  destruct (full_progressed_world (tick fr) w Hf Hc) as (Hk & Ht & m & Hm).
  unfold say. cbn. repeat split; try assumption.
  exists (m ++ diagnostics (count fr + 1) line).
  rewrite Hm. now rewrite app_assoc.
Qed.

(** Whatever fuel lets the consumer finish, the objects it has received
    are the first ones of the valid lines, in order: all of them, unless
    line 57 raised [OverflowError].  The generator then ended as the
    iteration over the file did, after reporting the other lines if that
    was normally. *)
Lemma full_consume_suspended (unread : list pystr) :
  forall fuel fr w ending vs o w',
    frame_ok fr ->
    consume fuel (Full.Suspended fr unread ending) w = Some (vs, o, w') ->
    (exists rest, emitted unread = vs ++ rest) /\
    (o = Raised OverflowError \/
     vs = emitted unread /\
     match ending with
     | Some e => o = Raised e
     | None =>
         o = StopIteration /\
         exists mid,
           log w' = log w ++ mid
                    ++ summary (file_lines fr)
                         (skipped fr ++ passed_over unread)
     end).
Proof.
  induction unread as [| line rest IH]; intros fuel fr w ending vs o w' Hok H;
    (destruct fuel as [| fuel]; [discriminate |]).
  - cbn [Full.consume Full.next] in H. rewrite full_resume_nil in H.
    destruct ending as [e |]; injection H as <- <- <-.
    + split; [now exists [] |]. right. now split.
    + split; [now exists [] |]. right. repeat split.
      exists []. simpl. now rewrite app_nil_r.
  - cbn [Full.consume Full.next] in H.
    rewrite (full_resume_cons fr line rest ending w Hok) in H.
    destruct (Full.in_range _).
    2:{ injection H as <- <- <-. split; [now eexists |]. now left. }
    cbv zeta in H.
    rewrite emitted_cons, passed_over_cons, app_assoc, <- step_skipped,
      <- (step_file_lines py_int py_float fr line).
    destruct (full_step_world fr line w Hok) as (_ & _ & m & Hm).
    pose proof (frame_ok_step py_int py_float fr line Hok) as Hok'.
    destruct (yielded line) as [v |].
    + destruct (Full.consume _ _ _ fuel _ _) as [[[vs0 o0] w0] |] eqn:E;
        [| discriminate].
      injection H as <- <- <-.
      destruct (IH _ _ _ _ _ _ _ Hok' E) as ([r Hr] & Hend).
      split; [exists r; now rewrite Hr |].
      destruct Hend as [-> | [-> Hend]]; [now left | right].
      split; [reflexivity |].
      destruct ending as [e |]; [exact Hend |].
      destruct Hend as (-> & mid & Hmid). split; [reflexivity |].
      exists (m ++ mid). rewrite Hmid, Hm. now rewrite <- !app_assoc.
    + assert (E : consume (S fuel) (Full.Suspended (step fr line) rest ending)
                    (say (diagnostics (count fr + 1) line)
                       (Full.progressed (tick fr) w)) = Some (vs, o, w')).
      { cbn [Full.consume Full.next]. exact H. }
      destruct (IH _ _ _ _ _ _ _ Hok' E) as (Hr & Hend).
      split; [exact Hr |].
      destruct Hend as [-> | [-> Hend]]; [now left | right].
      split; [reflexivity |].
      destruct ending as [e |]; [exact Hend |].
      destruct Hend as (-> & mid & Hmid). split; [reflexivity |].
      exists (m ++ mid). rewrite Hmid, Hm. now rewrite <- !app_assoc.
Qed.

Lemma timely_frame (clock : nat -> Q) (n : nat) :
  forall t a b,
    start_time a = start_time b -> count a = count b ->
    file_lines a = file_lines b ->
    Full.timely clock t a n = Full.timely clock t b n.
Proof.
  induction n as [| n IH]; intros t a b Hs Hc Hf; [reflexivity |].
  cbn [Full.timely]. rewrite Hs, Hc, Hf. f_equal.
  apply IH; cbn; congruence.
Qed.

Lemma timely_step (clock : nat -> Q) (t n : nat) (fr : frame)
    (line : pystr) :
  Full.timely clock t (step fr line) n = Full.timely clock t (tick fr) n.
Proof.
  apply timely_frame; unfold Parser.step; now destruct (classify line).
Qed.

(** While the estimates stay in range, one pull more than there are
    lines is fuel enough, every valid line gives its object, and the
    generator ends as the iteration over the file does. *)
Lemma full_consume_timely (unread : list pystr) :
  forall fuel fr w ending,
    frame_ok fr ->
    Full.timely (clock w) (ticks w) fr (List.length unread) = true ->
    (List.length unread < fuel)%nat ->
    exists w',
      consume fuel (Full.Suspended fr unread ending) w =
      Some (emitted unread,
            match ending with
            | Some e => Raised e
            | None => StopIteration
            end, w').
Proof.
  induction unread as [| line rest IH]; intros fuel fr w ending Hok Ht Hfuel;
    (destruct fuel as [| fuel]; [simpl in Hfuel; lia |]).
  - cbn [Full.consume Full.next]. rewrite full_resume_nil.
    destruct ending; eauto.
  - cbn [Full.consume Full.next].
    rewrite (full_resume_cons fr line rest ending w Hok).
    cbn [List.length Full.timely] in Ht.
    apply andb_true_iff in Ht. destruct Ht as [Hr Ht]. rewrite Hr.
    cbv zeta. rewrite emitted_cons.
    destruct (full_step_world fr line w Hok) as (Hk & Hti & _).
    cbv zeta in Hk, Hti.
    pose proof (frame_ok_step py_int py_float fr line Hok) as Hok'.
    rewrite <- (timely_step _ _ _ fr line), <- Hk, <- Hti in Ht.
    simpl in Hfuel.
    destruct (yielded line) as [v |].
    + destruct (IH fuel _ _ ending Hok' Ht) as [w' E]; [lia |].
      rewrite E. eauto.
    + destruct (IH (S fuel) _ _ ending Hok' Ht) as [w' E]; [lia |].
      cbn [Full.consume Full.next] in E. exists w'. exact E.
Qed.

(** *** Counting the lines and starting up *)

Lemma full_inspect_file_spec (path : pystr) (f : Full.file) (w : world) :
  disk path = Some f ->
  _inspect_file path w =
  match Full.open_error f, Full.read_error f with
  | Some e, _ | None, Some e => (Raise e, say [(INFO, MsgStartCounting)] w)
  | None, None =>
      let n := Z.max 1 (Z.of_nat (List.length (Full.content f))) in
      (Ok n, say [(INFO, MsgStartCounting); (INFO, MsgTotalLines n)] w)
  end.
Proof.
  intros Hd.
  unfold Full._inspect_file, bind, info, emit, Full.open, enumerate.
  rewrite Hd. cbn.
  destruct (Full.open_error f) as [e |]; [reflexivity |]. cbn.
  destruct (Full.read_error f) as [e |]; [reflexivity |]. cbn.
  rewrite last_index.
  assert (E : match Full.content f with
              | [] => 0
              | _ :: _ => 0 + Z.of_nat (List.length (Full.content f)) - 1
              end + 1 = Z.max 1 (Z.of_nat (List.length (Full.content f)))).
  { destruct (Full.content f); cbn [List.length]; lia. }
  rewrite E. unfold say. cbn. now rewrite <- app_assoc.
Qed.

Lemma full_prologue_missing (folder : pystr) (w : world) :
  disk (path_join folder FILENAME) = None ->
  let text := FILE_NOT_FOUND_ERROR (path_join folder FILENAME) in
  prologue folder w =
  (Raise (FileExistsError text), say [(ERROR, MsgFileNotFound text)] w).
Proof.
  intros Hd text. unfold Full.prologue, Full.path_exists. rewrite Hd.
  reflexivity.
Qed.

Lemma full_prologue_found (folder : pystr) (f : Full.file) (w : world) :
  disk (path_join folder FILENAME) = Some f ->
  prologue folder w =
  match Full.open_error f, Full.read_error f with
  | Some e, _ | None, Some e => (Raise e, say [(INFO, MsgStartCounting)] w)
  | None, None =>
      let n := Z.max 1 (Z.of_nat (List.length (Full.content f))) in
      (Ok (Frame n 0 [] (clock w (ticks w)), f),
       World (clock w) (S (ticks w))
         (log w ++ [(INFO, MsgStartCounting); (INFO, MsgTotalLines n);
                    (INFO, MsgStartReading FILENAME)]))
  end.
Proof.
  intros Hd. unfold Full.prologue, Full.path_exists. rewrite Hd. cbn [negb].
  unfold bind at 1. rewrite (full_inspect_file_spec _ _ w Hd).
  destruct (Full.open_error f) as [e |] eqn:Eo; [reflexivity |].
  destruct (Full.read_error f) as [e |]; [reflexivity |].
  unfold bind, Full.open, info, emit, time_time, say. rewrite Hd, Eo. cbn.
  now rewrite <- app_assoc.
Qed.

(** The first pull on a file that opens and reads is the loop from the
    first line. *)
Lemma full_next_created (folder : pystr) (f : Full.file) (w : world) :
  disk (path_join folder FILENAME) = Some f ->
  Full.open_error f = None -> Full.read_error f = None ->
  let n := Z.max 1 (Z.of_nat (List.length (Full.content f))) in
  next (Full.load_data folder) w =
  resume (Frame n 0 [] (clock w (ticks w))) (Full.content f) None
    (World (clock w) (S (ticks w))
       (log w ++ [(INFO, MsgStartCounting); (INFO, MsgTotalLines n);
                  (INFO, MsgStartReading FILENAME)])).
Proof.
  intros Hd Ho Hr n. cbn [Full.next Full.load_data].
  rewrite (full_prologue_found folder f w Hd), Ho, Hr.
  cbv beta iota zeta. now rewrite Hr.
Qed.

(** The first pull on a file that does not open or does not read. *)
Lemma full_next_unreadable (folder : pystr) (f : Full.file) (e : exn)
    (w : world) :
  disk (path_join folder FILENAME) = Some f ->
  Full.open_error f = Some e \/
  Full.open_error f = None /\ Full.read_error f = Some e ->
  next (Full.load_data folder) w =
  (Raised e, Full.Finished, say [(INFO, MsgStartCounting)] w).
Proof.
  intros Hd He. cbn [Full.next Full.load_data].
  rewrite (full_prologue_found folder f w Hd).
  destruct He as [-> | [-> ->]]; reflexivity.
Qed.

(** The whole run, for any fuel that lets the consumer finish: the
    objects received are the first ones of the valid lines. *)
Lemma full_consume_load_data (folder : pystr) (f : Full.file) (fuel : nat)
    (w : world) (vs : list value) (o : outcome) (w' : world) :
  disk (path_join folder FILENAME) = Some f ->
  consume fuel (Full.load_data folder) w = Some (vs, o, w') ->
  exists rest, emitted (Full.content f) = vs ++ rest.
Proof.
  intros Hd H. destruct fuel as [| fuel]; [discriminate |].
  destruct (Full.open_error f) as [e |] eqn:Eo.
  { cbn [Full.consume] in H.
    rewrite (full_next_unreadable folder f e w Hd (or_introl Eo)) in H.
    injection H as <- _ _. now eexists. }
  destruct (Full.read_error f) as [e |] eqn:Er.
  { cbn [Full.consume] in H.
    rewrite (full_next_unreadable folder f e w Hd
               (or_intror (conj Eo Er))) in H.
    injection H as <- _ _. now eexists. }
  assert (E : consume (S fuel)
                (Full.Suspended
                   (Frame (Z.max 1 (Z.of_nat (List.length (Full.content f))))
                      0 [] (clock w (ticks w))) (Full.content f) None)
                (World (clock w) (S (ticks w))
                   (log w ++ [(INFO, MsgStartCounting);
                              (INFO, MsgTotalLines
                                 (Z.max 1 (Z.of_nat
                                    (List.length (Full.content f)))));
                              (INFO, MsgStartReading FILENAME)]))
              = Some (vs, o, w')).
  { cbn [Full.consume] in H |- *.
    rewrite (full_next_created folder f w Hd Eo Er) in H. exact H. }
  apply (full_consume_suspended _ _ _ _ _ _ _ _ (first_frame_ok _ _) E).
Qed.

(** Over a file that opens and reads, and while the estimates stay in
    range, the run ends normally with the objects of the valid lines. *)
Lemma full_consume_load_data_steady (folder : pystr) (f : Full.file)
    (fuel : nat) (w : world) :
  disk (path_join folder FILENAME) = Some f ->
  Full.open_error f = None -> Full.read_error f = None ->
  Full.steady w (List.length (Full.content f)) = true ->
  (List.length (Full.content f) < fuel)%nat ->
  exists w',
    consume fuel (Full.load_data folder) w =
    Some (emitted (Full.content f), StopIteration, w').
Proof.
  intros Hd Eo Er Hs Hfuel. destruct fuel as [| fuel]; [lia |].
  destruct (full_consume_timely (Full.content f) (S fuel)
              (Frame (Z.max 1 (Z.of_nat (List.length (Full.content f))))
                 0 [] (clock w (ticks w)))
              (World (clock w) (S (ticks w))
                 (log w ++ [(INFO, MsgStartCounting);
                            (INFO, MsgTotalLines
                               (Z.max 1 (Z.of_nat
                                  (List.length (Full.content f)))));
                            (INFO, MsgStartReading FILENAME)]))
              None (first_frame_ok _ _) Hs Hfuel) as [w' E].
  exists w'. cbn [Full.consume] in E |- *.
  now rewrite (full_next_created folder f w Hd Eo Er).
Qed.

(** Lines 62-106 on any frame: they never raise. *)
Lemma transform_spec (fr : frame) (line : pystr) (w : world) :
  transform fr line w =
  (Ok (match classify line with
       | Valid _ => fr
       | Skipped _ => skipped_append fr line
       end, yielded line),
   say (diagnostics (count fr) line) w).
Proof.
  unfold Parser.transform, Parser.yielded, Parser.diagnostics,
    Parser.classify.
  destruct (startswith line (lit "#") || eqb (strip line) []).
  { cbn. now rewrite say_nil. }
  unfold bind, try_except_ValueError, unpack9, lift_option.
  destruct (as_row (split (strip line) DELIMITER))
    as [[[[[[[[[chrom start] end_] score] a] b] c] d] e] |]; cbn.
  - rewrite cast_spec.
    destruct (py_int start), (py_int end_), (py_float score); cbn;
      rewrite ?say_nil; reflexivity.
  - unfold ret, say. cbn. now rewrite <- app_assoc.
Qed.

(** C4, as amended.  Lines 62-106 raise nothing.  A trimmed line that
    does not split into nine fields, and a line one of whose start, end
    and score fields cannot be converted, end their iteration with an
    error logged, the line appended to [skipped] and nothing yielded; no
    run hands the consumer anything for such a line.  A missing input
    file makes the first pull raise the file-not-found error, before any
    object.  The error of [open] or of the iteration over a file that is
    there is not caught: it leaves the first pull, before any object.
    Over a file that opens and reads, and while the estimates of line 57
    are durations a [timedelta] can hold, nothing is raised: the consumer
    receives the objects of the valid lines and the generator ends
    normally. *)
Theorem C4_line_failures_skip_and_file_errors_propagate :
  (forall fr line w,
      exists fr' out w', transform fr line w = (Ok (fr', out), w')) /\
  (forall fr line w,
      startswith line (lit "#") = false -> strip line <> [] ->
      List.length (split (strip line) DELIMITER) <> 9%nat ->
      transform fr line w =
      (Ok (skipped_append fr line, None),
       say [ (ERROR, MsgUnpackFailed (count fr) line);
             (ERROR, MsgGot (split (strip line) DELIMITER)) ] w) /\
      skipped (skipped_append fr line) = skipped fr ++ [line] /\
      emitted [line] = []) /\
  (forall fr line w chrom start end_ score f5 f6 f7 f8 f9,
      startswith line (lit "#") = false ->
      split (strip line) DELIMITER =
        [chrom; start; end_; score; f5; f6; f7; f8; f9] ->
      py_int start = None \/ py_int end_ = None \/ py_float score = None ->
      transform fr line w =
      (Ok (skipped_append fr line, None),
       say [ (ERROR, MsgCastFailed (count fr)) ] w) /\
      skipped (skipped_append fr line) = skipped fr ++ [line] /\
      emitted [line] = []) /\
  (forall folder f fuel w vs o w',
      disk (path_join folder FILENAME) = Some f ->
      consume fuel (Full.load_data folder) w = Some (vs, o, w') ->
      exists rest, emitted (Full.content f) = vs ++ rest) /\
  (forall folder fuel w,
      disk (path_join folder FILENAME) = None ->
      let text := FILE_NOT_FOUND_ERROR (path_join folder FILENAME) in
      consume (S fuel) (Full.load_data folder) w =
      Some ([], Raised (FileExistsError text),
            say [(ERROR, MsgFileNotFound text)] w)) /\
  (forall folder f e fuel w,
      disk (path_join folder FILENAME) = Some f ->
      Full.open_error f = Some e \/
      Full.open_error f = None /\ Full.read_error f = Some e ->
      consume (S fuel) (Full.load_data folder) w =
      Some ([], Raised e, say [(INFO, MsgStartCounting)] w)) /\
  (forall folder f fuel w,
      disk (path_join folder FILENAME) = Some f ->
      Full.open_error f = None -> Full.read_error f = None ->
      Full.steady w (List.length (Full.content f)) = true ->
      (List.length (Full.content f) < fuel)%nat ->
      exists w',
        consume fuel (Full.load_data folder) w =
        Some (emitted (Full.content f), StopIteration, w')).
Proof.
  repeat apply conj.
  - intros fr line w. rewrite transform_spec. eauto.
  - intros fr line w Hh Hb Hn.
    pose proof (classify_mismatch py_int py_float line Hh Hb Hn) as Hc.
    rewrite transform_spec.
    unfold Parser.yielded, Parser.diagnostics. cbn [Parser.emitted].
    rewrite Hc. now repeat split.
  - intros fr line w chrom start end_ score f5 f6 f7 f8 f9 Hh Hsplit Hf.
    assert (Hc : classify line = Skipped type_coercion_failure).
    { unfold Parser.classify. rewrite Hh.
      destruct (eqb (strip line) []) eqn:Hb.
      - apply eqb_eq in Hb. rewrite Hb in Hsplit. discriminate.
      - cbn [orb]. rewrite Hsplit. cbn [as_row].
        destruct Hf as [Hf | [Hf | Hf]]; rewrite Hf;
          try reflexivity; destruct (py_int start); try reflexivity;
          destruct (py_int end_); reflexivity. }
    rewrite transform_spec.
    unfold Parser.yielded, Parser.diagnostics. cbn [Parser.emitted].
    rewrite Hc. now repeat split.
  - intros folder f fuel w vs o w'. apply full_consume_load_data.
  - intros folder fuel w Hd text. cbn [Full.consume Full.next Full.load_data].
    now rewrite (full_prologue_missing folder w Hd).
  - intros folder f e fuel w Hd He. cbn [Full.consume].
    now rewrite (full_next_unreadable folder f e w Hd He).
  - intros folder f fuel w. apply full_consume_load_data_steady.
Qed.

End Errors.

(** *** [Full] and [Parser]

    Over the files of [Parser], and while the estimates stay in range,
    the two hand the consumer the same objects and end the same way. *)
Lemma full_agrees_with_parser
    (py_int : pystr -> option Z) (py_float : pystr -> option spec_float)
    (fs : pystr -> option (list pystr))
    (folder : pystr) (lines : list pystr) (fuel : nat) (w : world) :
  fs (path_join folder FILENAME) = Some lines ->
  Full.steady w (List.length lines) = true ->
  (List.length lines < fuel)%nat ->
  exists w1 w2,
    Parser.consume py_int py_float fs fuel (Parser.load_data folder) w =
    Some (emitted py_int py_float lines, StopIteration, w1) /\
    Full.consume py_int py_float
      (fun path => option_map Full.readable (fs path)) fuel
      (Full.load_data folder) w =
    Some (emitted py_int py_float lines, StopIteration, w2).
Proof.
  intros Hfs Hs Hfuel.
  destruct (consume_load_data_total py_int py_float fs folder fuel w)
    as [[[vs o] w1] E1].
  { unfold Parser.input_lines. now rewrite Hfs. }
  pose proof (consume_load_data py_int py_float fs _ _ _ _ _ _ E1) as R.
  rewrite Hfs in R. destruct R as (-> & -> & _).
  exists w1. rewrite E1.
  destruct (full_consume_load_data_steady py_int py_float
              (fun path => option_map Full.readable (fs path))
              folder (Full.readable lines) fuel w)
    as [w2 E2]; try reflexivity; try assumption.
  { now rewrite Hfs. }
  exists w2. split; [reflexivity | exact E2].
Qed.

(** * The claims on the sample files *)

Lemma fr0_ok : frame_ok Sample.fr0.
Proof. unfold frame_ok. simpl. lia. Qed.






(** C4 as first stated fails on a file that is there and is not text:
    the first pull raises [UnicodeDecodeError] from the loop of
    [_inspect_file], outside any [try], and that is no file-not-found
    error.  So does [open] on a directory named as the input file. *)
Lemma C4_counterexample :
  Full.path_exists Full.sample_disk
    (path_join (lit "undecodable") FILENAME) = true
  /\ Full.consume int_of_str float_of_str Full.sample_disk 1
       (Full.load_data (lit "undecodable")) Sample.w0 =
     Some ([], Raised UnicodeDecodeError,
           say [(INFO, MsgStartCounting)] Sample.w0)
  /\ Full.path_exists Full.sample_disk
       (path_join (lit "directory") FILENAME) = true
  /\ Full.consume int_of_str float_of_str Full.sample_disk 1
       (Full.load_data (lit "directory")) Sample.w0 =
     Some ([], Raised (OSError (lit "Is a directory")),
           say [(INFO, MsgStartCounting)] Sample.w0).
Proof. vm_compute. repeat split. Qed.

Lemma C4_witness :
  (transform int_of_str float_of_str (tick Sample.fr0) Sample.eight_fields
     Sample.w0 =
   (Ok (skipped_append (tick Sample.fr0) Sample.eight_fields, None),
    say [ (ERROR, MsgUnpackFailed 1 Sample.eight_fields);
          (ERROR, MsgGot (split (strip Sample.eight_fields) DELIMITER)) ]
      Sample.w0) /\
   skipped (skipped_append (tick Sample.fr0) Sample.eight_fields)
   = [Sample.eight_fields] /\
   emitted int_of_str float_of_str [Sample.eight_fields] = [])
  /\ (transform int_of_str float_of_str (tick Sample.fr0)
        Sample.not_a_number Sample.w0 =
      (Ok (skipped_append (tick Sample.fr0) Sample.not_a_number, None),
       say [ (ERROR, MsgCastFailed 1) ] Sample.w0) /\
      skipped (skipped_append (tick Sample.fr0) Sample.not_a_number)
      = [Sample.not_a_number] /\
      emitted int_of_str float_of_str [Sample.not_a_number] = [])
  /\ Full.consume int_of_str float_of_str Full.sample_disk 1
       (Full.load_data (lit "nowhere")) Sample.w0 =
     Some ([],
           Raised (FileExistsError
                     (lit "Cannot find input file: nowhere/3dts_loci_scores.sorted.tsv")),
           say [ (ERROR,
                  MsgFileNotFound
                    (lit "Cannot find input file: nowhere/3dts_loci_scores.sorted.tsv")) ]
             Sample.w0)
  /\ Full.consume int_of_str float_of_str Full.sample_disk 1
       (Full.load_data (lit "undecodable")) Sample.w0 =
     Some ([], Raised UnicodeDecodeError,
           say [(INFO, MsgStartCounting)] Sample.w0)
  /\ exists w',
       Full.consume int_of_str float_of_str Full.sample_disk 7
         (Full.load_data (lit "data")) Sample.w0 =
       Some (emitted int_of_str float_of_str Sample.file, StopIteration, w').
Proof.
  destruct (C4_line_failures_skip_and_file_errors_propagate
              int_of_str float_of_str Full.sample_disk)
    as (_ & Hunpack & Hcast & _ & Hmissing & Hfile & Hrun).
  split; [| split; [| split; [| split]]].
  - apply (Hunpack (tick Sample.fr0) Sample.eight_fields Sample.w0).
    + vm_compute. reflexivity.
    + vm_compute. discriminate.
    + vm_compute. discriminate.
  - apply (Hcast (tick Sample.fr0) Sample.not_a_number Sample.w0
             (lit "chr1") (lit "100") (lit "200") (lit "NOTANUM")
             (lit "PDB1") (lit "A") (lit "featX") (lit "10") (lit "20")).
    + vm_compute. reflexivity.
    + vm_compute. reflexivity.
    + right. right. vm_compute. reflexivity.
  - apply (Hmissing (lit "nowhere") 0%nat Sample.w0).
    vm_compute. reflexivity.
  - apply (Hfile (lit "undecodable") Full.undecodable UnicodeDecodeError
             0%nat Sample.w0).
    + vm_compute. reflexivity.
    + right. split; reflexivity.
  - apply (Hrun (lit "data") (Full.readable Sample.file) 7%nat Sample.w0).
    + vm_compute. reflexivity.
    + reflexivity.
    + reflexivity.
    + vm_compute. reflexivity.
    + vm_compute. lia.
Defined.




(** *** The clock and the records *)

Lemma long_length : Z.of_nat (List.length Full.long) = 100000.
Proof. unfold Full.long. cbn [List.length]. rewrite repeat_length. lia. Qed.

Lemma long_on_disk :
  Full.sample_disk (path_join (lit "long") FILENAME)
  = Some (Full.readable Full.long).
Proof.
  unfold Full.sample_disk, Full.folders.
  generalize Full.long, Full.plenty. intros l m.
  vm_compute. reflexivity.
Qed.

(** The first pull on the file of a hundred thousand lines runs the
    first iteration from the frame and the world that lines 41-53
    leave. *)
Lemma long_first_pull (w : world) :
  Full.next int_of_str float_of_str Full.sample_disk
    (Full.load_data (lit "long")) w =
  Full.resume int_of_str float_of_str
    (Frame 100000 0 [] (clock w (ticks w))) Full.long None
    (World (clock w) (S (ticks w))
       (log w ++ [(INFO, MsgStartCounting); (INFO, MsgTotalLines 100000);
                  (INFO, MsgStartReading FILENAME)])).
Proof.
  rewrite (full_next_created _ _ _ _ _ w long_on_disk eq_refl eq_refl).
  cbv zeta. cbn [Full.content Full.readable]. now rewrite long_length.
Qed.

(** C8.  The clock decides where the records end.  Over one and the same
    file of a hundred thousand lines whose first line is valid, the first
    pull hands over the object of that line when the clock advances a
    second per reading; when the clock is set from 0 to 1770000000
    between the reading of line 53 and the first one of line 57, the
    estimate of 176998230000000 seconds is beyond the 999999999 days of a
    [timedelta], the first pull raises [OverflowError] and the consumer
    receives nothing.  What no clock does is alter or reorder the
    objects: a consumer always receives the first ones of the valid
    lines, in order. *)
Theorem C8_clock_decides_where_the_records_end :
  (exists v,
     classify int_of_str float_of_str Sample.good = Valid v /\
     fst (fst (Full.next int_of_str float_of_str Full.sample_disk
                 (Full.load_data (lit "long")) Sample.w0)) = Yield v) /\
  (Full.seconds_left 0 1770000000 1 100000 == 176998230000000)%Q /\
  Full.microseconds (Full.seconds_left 0 1770000000 1 100000)
  / 86400000000 = 2048590625 /\
  (forall fuel,
     Full.consume int_of_str float_of_str Full.sample_disk (S fuel)
       (Full.load_data (lit "long")) Full.set_clock =
     Some ([], Raised OverflowError,
           World (clock Full.set_clock) 2
             [(INFO, MsgStartCounting); (INFO, MsgTotalLines 100000);
              (INFO, MsgStartReading FILENAME)])) /\
  (forall py_int py_float disk folder f fuel w vs o w',
     disk (path_join folder FILENAME) = Some f ->
     Full.consume py_int py_float disk fuel (Full.load_data folder) w
     = Some (vs, o, w') ->
     exists rest, emitted py_int py_float (Full.content f) = vs ++ rest).
Proof.
  assert (Hok : forall t, frame_ok (Frame 100000 0 [] t)).
  { intros t. unfold frame_ok. cbn. lia. }
  repeat apply conj.
  - assert (Hc : exists v,
               classify int_of_str float_of_str Sample.good = Valid v).
    { vm_compute. eexists. reflexivity. }
    destruct Hc as [v Hc]. exists v. split; [exact Hc |].
    rewrite long_first_pull. unfold Full.long.
    rewrite (full_resume_cons _ _ _ _ _ _ _ (Hok _)).
    replace (Full.in_range _) with true by (vm_compute; reflexivity).
    cbv zeta. unfold Parser.yielded. rewrite Hc. reflexivity.
  - vm_compute. reflexivity.
  - vm_compute. reflexivity.
  - intros fuel. cbn [Full.consume]. rewrite long_first_pull.
    unfold Full.long.
    rewrite (full_resume_cons _ _ _ _ _ _ _ (Hok _)).
    replace (Full.in_range _) with false by (vm_compute; reflexivity).
    reflexivity.
  - intros py_int py_float disk folder f fuel w vs o w'.
    apply full_consume_load_data.
Qed.




(** * Further facts about the string operations *)

Section MoreStringFacts.

Lemma split_fields_no_sep (t : N) (s : pystr) :
  Forall (fun f => ~ In t f) (split s [t]).
Proof.
  induction s as [| c s IH].
  - constructor; [intros [] | constructor].
  - destruct (N.eq_dec c t) as [-> | Hc].
    + rewrite split_sep. constructor; [intros [] | exact IH].
    + rewrite split_other by assumption.
      destruct (split s [t]) as [| f fs].
      * constructor; [| constructor]. intros [E | []]. now elim Hc.
      * inversion IH as [| ? ? Hf Hfs]; subst. constructor; [| exact Hfs].
        intros [E | Hin]; [now elim Hc | now elim Hf].
Qed.

Lemma replace_chr_In_le (n : nat) (x : N) (s : pystr) :
  (List.length s <= n)%nat ->
  In x (replace s (lit "chr") []) -> In x s.
Proof.
  revert s. induction n as [| n IH]; intros s Hs Hin.
  - destruct s; [exact Hin | simpl in Hs; lia].
  - destruct s as [| c s]; [exact Hin |].
    destruct (startswith (c :: s) (lit "chr")) eqn:Hp.
    + destruct (startswith_chr _ Hp) as [t E]. rewrite E in Hin |- *.
      rewrite replace_chr_hit in Hin. apply in_or_app. right.
      apply IH; [| exact Hin].
      apply (f_equal (@List.length N)) in E. simpl in E, Hs. lia.
    + rewrite replace_chr_miss in Hin by assumption.
      destruct Hin as [E | Hin]; [now left | right].
      apply IH; [simpl in Hs; lia | exact Hin].
Qed.

(** Removing ["chr"] brings in no character the field did not have. *)
Lemma replace_chr_In (x : N) (s : pystr) :
  In x (replace s (lit "chr") []) -> In x s.
Proof. now apply (replace_chr_In_le (List.length s)). Qed.

(** Two strings that agree, each a run of [P]-characters closed by the
    same character outside [P], have the same run and the same rest. *)
Lemma app_sep_inj (P : N -> Prop) (t : N) (x y a b : pystr) :
  Forall P x -> Forall P y -> ~ P t ->
  x ++ t :: a = y ++ t :: b -> x = y /\ a = b.
Proof.
  intros Hx Hy Ht. revert y Hy.
  induction Hx as [| c x Hc Hx IH]; intros y Hy E.
  - destruct y as [| d y]; simpl in E.
    + injection E as ->. now split.
    + injection E as <- _. inversion Hy; subst. contradiction.
  - destruct y as [| d y]; simpl in E.
    + injection E as -> _. contradiction.
    + injection E as <- E. inversion Hy; subst.
      destruct (IH y) as [-> ->]; auto.
Qed.

Lemma uint_codes_digits (u : Decimal.uint) :
  Forall (fun c => (48 <= c <= 57)%N) (uint_codes u).
Proof. induction u; simpl; constructor; auto; lia. Qed.

Lemma uint_codes_inj (u v : Decimal.uint) :
  uint_codes u = uint_codes v -> u = v.
Proof.
  revert v. induction u; intros v E; destruct v; simpl in E;
    try discriminate; try reflexivity; injection E as E; f_equal; auto.
Qed.

Lemma str_of_int_chars (n : Z) : Forall numeral_char (str_of_int n).
Proof.
  assert (D : forall u, Forall numeral_char (uint_codes u)).
  { intros u. eapply Forall_impl; [| apply uint_codes_digits].
    intros c Hc. now right. }
  destruct n; simpl.
  - constructor; [right; lia | constructor].
  - apply D.
  - constructor; [now left | apply D].
Qed.

(** [str] on integers is one to one. *)
Lemma str_of_int_inj (n m : Z) : str_of_int n = str_of_int m -> n = m.
Proof.
  assert (Hhead : forall p, exists c r,
             uint_codes (Pos.to_uint p) = c :: r /\ (48 <= c <= 57)%N).
  { intros p. pose proof (uint_codes_digits (Pos.to_uint p)) as D.
    pose proof (Unsigned.to_uint_nonnil p) as Hn.
    destruct (Pos.to_uint p); simpl in *; try (now elim Hn);
      inversion D; subst; eauto. }
  assert (Hzero : forall p, uint_codes (Pos.to_uint p) <> [48%N]).
  { intros p E. apply (Unsigned.to_uint_nonzero p).
    apply uint_codes_inj. exact E. }
  destruct n as [| p | p], m as [| q | q]; simpl; intros E;
    try reflexivity.
  - symmetry in E. now apply Hzero in E.
  - discriminate.
  - now apply Hzero in E.
  - apply uint_codes_inj, Unsigned.to_uint_inj in E. now subst.
  - destruct (Hhead p) as (c & r & Hc & Hr). rewrite Hc in E.
    injection E as -> _. lia.
  - discriminate.
  - destruct (Hhead q) as (c & r & Hc & Hr). rewrite Hc in E.
    injection E as <- _. lia.
  - injection E as E.
    apply uint_codes_inj, Unsigned.to_uint_inj in E. now subst.
Qed.

(** The identifier [chr{chrom}:g.{start}_{end}] determines the three
    values it is made of. *)
Lemma id_inj (c1 c2 : pystr) (s1 e1 s2 e2 : Z) :
  lit "chr" ++ c1 ++ lit ":g." ++ str_of_int s1 ++ lit "_" ++ str_of_int e1 =
  lit "chr" ++ c2 ++ lit ":g." ++ str_of_int s2 ++ lit "_" ++ str_of_int e2 ->
  c1 = c2 /\ s1 = s2 /\ e1 = e2.
Proof.
  intros E. apply app_inv_head in E.
  apply (f_equal (@rev N)) in E.
  rewrite !rev_app_distr in E.
  change (rev (lit "_")) with [95%N] in E.
  change (rev (lit ":g.")) with [46%N; 103%N; 58%N] in E.
  rewrite <- !app_assoc in E. cbn [app] in E.
  assert (N95 : ~ numeral_char 95) by (unfold numeral_char; lia).
  assert (N46 : ~ numeral_char 46) by (unfold numeral_char; lia).
  pose proof (fun n => Forall_rev (str_of_int_chars n)) as R.
  destruct (app_sep_inj numeral_char 95 _ _ _ _ (R e1) (R e2) N95 E)
    as [He E'].
  destruct (app_sep_inj numeral_char 46 _ _ _ _ (R s1) (R s2) N46 E')
    as [Hs E''].
  injection E'' as Hc.
  apply (f_equal (@rev N)) in He, Hs, Hc.
  rewrite !rev_involutive in He, Hs, Hc.
  apply str_of_int_inj in He, Hs. now repeat split.
Qed.

Lemma startswith_app_spaces (line ws : pystr) :
  forallb isspace ws = true ->
  startswith (line ++ ws) (lit "#") = startswith line (lit "#").
Proof.
  intros Hws. destruct line as [| c line]; [| reflexivity].
  destruct ws as [| d ws]; [reflexivity |].
  cbn in Hws |- *. apply andb_true_iff in Hws. destruct Hws as [Hd _].
  destruct (N.eqb_spec d 35); [subst; discriminate | reflexivity].
Qed.

Lemma startswith_spaces_app (line ws : pystr) :
  forallb isspace ws = true ->
  startswith line (lit "#") = false ->
  startswith (ws ++ line) (lit "#") = false.
Proof.
  intros Hws Hl. destruct ws as [| d ws]; [exact Hl |].
  cbn in Hws |- *. apply andb_true_iff in Hws. destruct Hws as [Hd _].
  destruct (N.eqb_spec d 35); [subst; discriminate | reflexivity].
Qed.

Lemma strip_spaces_app (line ws : pystr) :
  forallb isspace ws = true -> strip (ws ++ line) = strip line.
Proof.
  intros Hws. unfold strip. now rewrite lstrip_app, Hws.
Qed.

(** [os.path.join(a + '/', b)] is [os.path.join(a, b)] unless [a] is
    empty or ends with a slash already. *)
Lemma path_join_slash (a b : pystr) (c : N) :
  c <> 47%N ->
  path_join ((a ++ [c]) ++ [47%N]) b = path_join (a ++ [c]) b.
Proof.
  intros Hc. unfold path_join. rewrite !rev_app_distr. cbn.
  destruct (N.eqb_spec c 47); [contradiction |].
  now rewrite <- !app_assoc.
Qed.

End MoreStringFacts.

(** * Further facts about the transformer *)

Section Beyond.

Variable py_int : pystr -> option Z.
Variable py_float : pystr -> option spec_float.
Variable fs : pystr -> option (list pystr).

#[local] Set Warnings "-notation-for-abbreviation".
Local Notation body := (body py_int py_float).
Local Notation resume := (resume py_int py_float).
Local Notation classify := (classify py_int py_float).
Local Notation diagnostics := (diagnostics py_int py_float).
Local Notation yielded := (yielded py_int py_float).
Local Notation step := (step py_int py_float).
Local Notation emitted := (emitted py_int py_float).
Local Notation passed_over := (passed_over py_int py_float).
Local Notation after_lines := (after_lines py_int py_float).
Local Notation prologue := (prologue fs).
Local Notation next := (next py_int py_float fs).
Local Notation consume := (consume py_int py_float fs).

(** *** The world an iteration leaves *)

Lemma progressed_exact (fr : frame) (w : world) :
  file_lines fr <> 0 -> count fr <> 0 ->
  let ratio := (inject_Z (count fr) / inject_Z (file_lines fr))%Q in
  progressed fr w =
  World (clock w) (S (ticks w))
    (log w ++
     if count fr mod 10000 =? 0
     then [ (INFO,
             MsgProgress (count fr) (ratio * 100)%Q
               (List.length (skipped fr))
               ((clock w (ticks w) - start_time fr) * (1 - ratio)
                / ratio)%Q) ]
     else []).
Proof.
  intros Hf Hc ratio. subst ratio.
  unfold progressed, progress, bind, truediv, fdiv, time_time.
  destruct (Z.eqb_spec (file_lines fr) 0) as [E | _]; [contradiction |].
  cbn. rewrite (ratio_nonzero _ _ Hc Hf). cbn.
  destruct (count fr mod 10000 =? 0); cbn; [reflexivity |].
  now rewrite app_nil_r.
Qed.

Lemma handed_body (fr : frame) (line : pystr) (w : world) :
  frame_ok fr -> handed (body fr line w) = yielded line.
Proof.
  intros Hok. now rewrite (body_classify py_int py_float fr line w Hok).
Qed.

Lemma after_lines_cons (fr : frame) (line : pystr) (rest : list pystr)
    (w : world) :
  frame_ok fr ->
  after_lines fr (line :: rest) w =
  after_lines (step fr line) rest
    (say (diagnostics (count fr + 1) line) (progressed (tick fr) w)).
Proof.
  intros Hok. cbn [Run.after_lines].
  now rewrite (body_classify py_int py_float fr line w Hok).
Qed.

Lemma after_lines_app (a b : list pystr) :
  forall fr w,
    frame_ok fr ->
    after_lines fr (a ++ b) w =
    after_lines (fst (after_lines fr a w)) b (snd (after_lines fr a w)).
Proof.
  induction a as [| line a IH]; intros fr w Hok; [reflexivity |].
  cbn [app]. rewrite !after_lines_cons by assumption.
  apply IH, frame_ok_step, Hok.
Qed.

Lemma diagnostics_no_progress (n : Z) (line : pystr) :
  filter is_progress (diagnostics n line) = [].
Proof.
  unfold Parser.diagnostics. now destruct (classify line) as [| []].
Qed.

Lemma summary_no_progress (n : Z) (l : list pystr) :
  filter is_progress (summary n l) = [].
Proof.
  unfold summary. cbn. induction l as [| x l IH]; [reflexivity | exact IH].
Qed.

Lemma progress_step (c : Z) :
  0 <= c ->
  (c + 1) / 10000 - c / 10000 = if (c + 1) mod 10000 =? 0 then 1 else 0.
Proof.
  intros Hc. destruct (Z.eqb_spec ((c + 1) mod 10000) 0) as [E | E];
    Z.div_mod_to_equations; lia.
Qed.

(** What the iterations over [file] add up to. *)
Lemma after_lines_facts (file : list pystr) :
  forall fr w,
    frame_ok fr ->
    let fr' := fst (after_lines fr file w) in
    let w' := snd (after_lines fr file w) in
    frame_ok fr' /\
    file_lines fr' = file_lines fr /\
    count fr' = count fr + Z.of_nat (List.length file) /\
    skipped fr' = skipped fr ++ passed_over file /\
    clock w' = clock w /\
    ticks w' = (ticks w + List.length file)%nat /\
    (exists m, log w' = log w ++ m) /\
    Z.of_nat (List.length (filter is_progress (log w'))) =
    Z.of_nat (List.length (filter is_progress (log w)))
    + (count fr + Z.of_nat (List.length file)) / 10000 - count fr / 10000.
Proof.
  induction file as [| line rest IH]; intros fr w Hok.
  - cbn. repeat split; try apply Hok; try lia.
    + now rewrite app_nil_r.
    + exists []. now rewrite app_nil_r.
    + rewrite Z.add_0_r. lia.
  - rewrite after_lines_cons by assumption.
    pose proof (frame_ok_step py_int py_float fr line Hok) as Hok'.
    specialize (IH (step fr line)
                  (say (diagnostics (count fr + 1) line)
                     (progressed (tick fr) w)) Hok').
    cbv zeta in IH |- *.
    destruct IH as (H1 & H2 & H3 & H4 & H5 & H6 & [m H7] & H8).
    destruct (frame_ok_tick fr Hok) as [Hf Hc].
    pose proof (progressed_exact (tick fr) w Hf Hc) as Hp. cbv zeta in Hp.
    assert (Hcount : count (step fr line) = count fr + 1).
    { unfold Parser.step. now destruct (classify line). }
    repeat split.
    + apply H1.
    + apply H1.
    + rewrite H2. apply step_file_lines.
    + rewrite H3, Hcount. cbn [List.length]. lia.
    + rewrite H4, step_skipped, <- app_assoc. f_equal.
      symmetry. apply passed_over_cons.
    + rewrite H5. unfold say. cbn. now rewrite Hp.
    + rewrite H6. unfold say. cbn. rewrite Hp. cbn [List.length ticks]. lia.
    + destruct (step_world py_int py_float fr line w) as [m0 Hm0].
      exists (m0 ++ m). rewrite H7, Hm0. now rewrite app_assoc.
    + rewrite H8, Hcount. unfold say. cbn [log]. rewrite Hp. cbn [log].
      rewrite !filter_app, diagnostics_no_progress, app_nil_r.
      rewrite length_app.
      replace (count fr + Z.of_nat (List.length (line :: rest)))
        with (count fr + 1 + Z.of_nat (List.length rest))
        by (cbn [List.length]; lia).
      assert (Hc0 : 0 <= count fr) by apply Hok.
      pose proof (progress_step (count fr) Hc0) as Hs.
      cbn [tick count] in *.
      destruct ((count fr + 1) mod 10000 =? 0); cbn [filter is_progress snd
        List.length]; lia.
Qed.

(** The world a finished consumer is left with, whatever its pulls. *)
Lemma consume_after_lines (file : list pystr) :
  forall fuel fr w vs o w',
    frame_ok fr ->
    consume fuel (Suspended fr file) w = Some (vs, o, w') ->
    w' = say (summary (file_lines fr)
                (skipped (fst (after_lines fr file w))))
           (snd (after_lines fr file w)).
Proof.
  induction file as [| line rest IH]; intros fuel fr w vs o w' Hok H;
    (destruct fuel as [| fuel]; [discriminate |]).
  - cbn [Parser.consume Parser.next] in H.
    rewrite (resume_nil py_int py_float) in H. now injection H as <- <- <-.
  - rewrite after_lines_cons by assumption.
    cbn [Parser.consume Parser.next] in H.
    rewrite (resume_cons py_int py_float fr line rest w Hok) in H.
    cbv zeta in H.
    pose proof (frame_ok_step py_int py_float fr line Hok) as Hok'.
    rewrite <- (step_file_lines py_int py_float fr line).
    destruct (yielded line) as [v |].
    + destruct (consume fuel _ _) as [[[vs0 o0] w0] |] eqn:E;
        [| discriminate].
      injection H as <- <- <-. exact (IH _ _ _ _ _ _ Hok' E).
    + apply (IH (S fuel) _ _ vs o w' Hok').
      cbn [Parser.consume Parser.next]. exact H.
Qed.

(** The frame and the world [load_data] enters its loop with. *)
Lemma consume_load_data_world (folder : pystr) (lines : list pystr)
    (fuel : nat) (w w' : world) (vs : list value) (o : outcome) :
  fs (path_join folder FILENAME) = Some lines ->
  consume fuel (load_data folder) w = Some (vs, o, w') ->
  let n := Z.max 1 (Z.of_nat (List.length lines)) in
  let fr0 := Frame n 0 [] (clock w (ticks w)) in
  let w0 := World (clock w) (S (ticks w))
              (log w ++ [ (INFO, MsgStartCounting); (INFO, MsgTotalLines n);
                          (INFO, MsgStartReading FILENAME) ]) in
  w' = say (summary n (skipped (fst (after_lines fr0 lines w0))))
         (snd (after_lines fr0 lines w0)).
Proof.
  intros Hfs H n fr0 w0. destruct fuel as [| fuel]; [discriminate |].
  apply (consume_after_lines lines (S fuel) fr0 w0 vs o w').
  - apply first_frame_ok.
  - cbn [Parser.consume Parser.next Parser.load_data] in H |- *.
    rewrite (prologue_found fs folder lines w Hfs) in H. exact H.
Qed.

(** The object a valid line gives is built by [entry] from its own
    fields and conversions. *)
Lemma yielded_entry (line : pystr) (v : value) :
  yielded line = Some v ->
  exists chrom start end_ score f5 f6 f7 f8 f9 s e x,
    split (strip line) DELIMITER =
      [chrom; start; end_; score; f5; f6; f7; f8; f9] /\
    py_int start = Some s /\ py_int end_ = Some e /\
    py_float score = Some x /\
    v = entry (replace chrom (lit "chr") []) s e x f5 f6 f7 f8 f9.
Proof.
  unfold Parser.yielded, Parser.classify.
  destruct (startswith line (lit "#") || eqb (strip line) []);
    [discriminate |].
  destruct (split (strip line) DELIMITER)
    as [| chrom [| start [| end_ [| score [| f5 [| f6 [| f7 [| f8
        [| f9 [| f10 l]]]]]]]]]]; cbn [as_row]; try discriminate.
  destruct (py_int start) as [s |] eqn:Hs; [| discriminate].
  destruct (py_int end_) as [e |] eqn:He; [| discriminate].
  destruct (py_float score) as [x |] eqn:Hx; [| discriminate].
  intros H. injection H as <-.
  exists chrom, start, end_, score, f5, f6, f7, f8, f9, s, e, x.
  now repeat split.
Qed.

Lemma entry_id (c : pystr) (s e : Z) (x : spec_float)
    (f5 f6 f7 f8 f9 : pystr) :
  doc_id (entry c s e x f5 f6 f7 f8 f9) =
  Some (VStr (lit "chr" ++ c ++ lit ":g." ++ str_of_int s ++ lit "_"
              ++ str_of_int e)).
Proof. reflexivity. Qed.

Lemma entry_locus (c : pystr) (s e : Z) (x : spec_float)
    (f5 f6 f7 f8 f9 : pystr) :
  doc_locus (entry c s e x f5 f6 f7 f8 f9) =
  (Some (VStr c), Some (VInt s), Some (VInt e)).
Proof. reflexivity. Qed.

(** Without a frame to stand on: a pull that yields leaves the generator
    suspended before a shorter rest of the file, any other pull leaves
    it finished. *)
Lemma resume_shape (file : list pystr) :
  forall fr w,
    match resume fr file w with
    | (Yield _, g', _) =>
        exists fr' file',
          g' = Suspended fr' file' /\
          (List.length file' < List.length file)%nat
    | (_, g', _) => g' = Finished
    end.
Proof.
  induction file as [| line rest IH]; intros fr w.
  - cbn [Parser.resume]. now destruct (epilogue fr w) as [[] ?].
  - cbn [Parser.resume].
    destruct (body fr line w) as [[[fr' [v |]] | e] w1].
    + exists fr', rest. split; [reflexivity | simpl; lia].
    + specialize (IH fr' w1).
      destruct (resume fr' rest w1) as [[[v | | e] g'] w2]; try exact IH.
      destruct IH as (fr2 & file2 & -> & Hlt).
      exists fr2, file2. split; [reflexivity | simpl; lia].
    + reflexivity.
Qed.

(** * Further properties *)

(** X1.  On a file without lines the generator yields nothing and ends
    normally at its first pull, having read the clock once and logged
    a total of one line, the start of the reading, and zero of one
    lines skipped. *)
Theorem X1_empty_file_run (folder : pystr) (fuel : nat) (w : world) :
  fs (path_join folder FILENAME) = Some [] ->
  consume (S fuel) (load_data folder) w =
  Some ([], StopIteration,
        World (clock w) (S (ticks w))
          (log w ++ [ (INFO, MsgStartCounting); (INFO, MsgTotalLines 1);
                      (INFO, MsgStartReading FILENAME);
                      (INFO, MsgCompleted 0 1) ])).
Proof.
  intros Hfs. cbn [Parser.consume Parser.next Parser.load_data].
  rewrite (prologue_found fs folder [] w Hfs). cbv zeta.
  rewrite (resume_nil py_int py_float).
  unfold say, summary. cbn. now rewrite <- app_assoc.
Qed.

(** X2.  A pull that yields leaves the generator suspended, and when it
    was suspended before, with strictly less of the file unread; a pull
    that does not yield leaves it finished, and a finished generator
    answers every further pull with [StopIteration] and touches neither
    the clock nor the log. *)
Theorem X2_pull_leaves_suspended_or_finished
    (g g' : gen) (w w' : world) (o : outcome) :
  next g w = (o, g', w') ->
  match o with
  | Yield _ =>
      exists fr' file',
        g' = Suspended fr' file' /\
        forall fr file,
          g = Suspended fr file ->
          (List.length file' < List.length file)%nat
  | _ =>
      g' = Finished /\
      forall w2, next g' w2 = (StopIteration, Finished, w2)
  end.
Proof.
  intros H.
  assert (R : forall fr file w0,
             resume fr file w0 = (o, g', w') ->
             match o with
             | Yield _ =>
                 exists fr' file',
                   g' = Suspended fr' file' /\
                   (List.length file' < List.length file)%nat
             | _ => g' = Finished
             end).
  { intros fr file w0 E. pose proof (resume_shape file fr w0) as S.
    rewrite E in S. now destruct o. }
  destruct g as [folder | fr file |]; cbn [Parser.next] in H.
  - destruct (prologue folder w) as [[[fr file] | e] w1].
    + apply R in H. destruct o; try (rewrite H; now split).
      destruct H as (fr' & file' & -> & _).
      exists fr', file'. split; [reflexivity | discriminate].
    + injection H as <- <- <-. now split.
  - apply R in H. destruct o; try (rewrite H; now split).
    destruct H as (fr' & file' & -> & Hlt).
    exists fr', file'. split; [reflexivity |].
    intros fr0 file0 E. now injection E as <- <-.
  - injection H as <- <- <-. now split.
Qed.

(** X3.  Two objects handed over by the generator have the same [_id]
    exactly when they have the same chromosome, start and end: the
    identifier never collides for different loci, and never tells apart
    two lines of one locus. *)
Theorem X3_same_id_iff_same_locus
    (fr1 fr2 : frame) (w1 w2 : world) (line1 line2 : pystr)
    (v1 v2 : value) :
  frame_ok fr1 -> frame_ok fr2 ->
  handed (body fr1 line1 w1) = Some v1 ->
  handed (body fr2 line2 w2) = Some v2 ->
  doc_id v1 = doc_id v2 <-> doc_locus v1 = doc_locus v2.
Proof.
  intros Hok1 Hok2 H1 H2. rewrite handed_body in H1, H2 by assumption.
  destruct (yielded_entry _ _ H1)
    as (c1 & ? & ? & ? & ? & ? & ? & ? & ? & s1 & e1 & ? & _ & _ & _ & _ & ->).
  destruct (yielded_entry _ _ H2)
    as (c2 & ? & ? & ? & ? & ? & ? & ? & ? & s2 & e2 & ? & _ & _ & _ & _ & ->).
  rewrite !entry_id, !entry_locus. split; intros E.
  - apply (f_equal (fun d => match d with
                             | Some (VStr t) => t
                             | _ => []
                             end)) in E.
    cbv beta iota in E. apply id_inj in E. destruct E as (-> & -> & ->).
    reflexivity.
  - injection E as -> -> ->. reflexivity.
Qed.

(** X4.  A leading [chr] on the chromosome field is optional: two lines
    that are not comments and whose trimmed forms differ only by a
    [chr] in front of the first field are handed over as the same
    object, or are both skipped. *)
Theorem X4_chr_prefix_optional
    (fr : frame) (w : world) (line1 line2 chrom : pystr)
    (fields : list pystr) :
  frame_ok fr ->
  startswith line1 (lit "#") = false ->
  startswith line2 (lit "#") = false ->
  split (strip line1) DELIMITER = (lit "chr" ++ chrom) :: fields ->
  split (strip line2) DELIMITER = chrom :: fields ->
  handed (body fr line1 w) = handed (body fr line2 w).
Proof.
  intros Hok Hh1 Hh2 Hs1 Hs2. rewrite !handed_body by assumption.
  unfold Parser.yielded, Parser.classify. rewrite Hh1, Hh2, Hs1, Hs2.
  assert (N1 : eqb (strip line1) [] = false).
  { apply eqb_neq. intros E. rewrite E in Hs1. discriminate. }
  rewrite N1. cbn [orb].
  destruct fields as [| start [| end_ [| score [| f5 [| f6 [| f7 [| f8
      [| f9 [| f10 l]]]]]]]]]; cbn [as_row];
    try (now destruct (eqb (strip line2) [])).
  rewrite (replace_chr_hit chrom).
  destruct (eqb (strip line2) []) eqn:N2; [| reflexivity].
  apply eqb_eq in N2. rewrite N2 in Hs2. discriminate.
Qed.

(** X5.  Whitespace around a line does not matter to what is handed
    over: the line with whitespace after it (its newline, a carriage
    return, spaces) and, unless it begins with ['#'], with whitespace
    before it, gives the same object or is skipped all the same. *)
Theorem X5_surrounding_whitespace_ignored
    (fr : frame) (w : world) (line before after : pystr) :
  frame_ok fr ->
  forallb isspace before = true ->
  forallb isspace after = true ->
  before = [] \/ startswith line (lit "#") = false ->
  handed (body fr (before ++ line ++ after) w) = handed (body fr line w).
Proof.
  intros Hok Hb Ha Hh. rewrite !handed_body by assumption.
  unfold Parser.yielded, Parser.classify.
  rewrite strip_spaces_app, strip_app_spaces by assumption.
  destruct Hh as [-> | Hh].
  - cbn [app]. now rewrite startswith_app_spaces.
  - rewrite startswith_spaces_app, Hh; [reflexivity | assumption |].
    now rewrite startswith_app_spaces.
Qed.


Lemma classify_cast_failure
    (line chrom start end_ score f5 f6 f7 f8 f9 : pystr) :
  startswith line (lit "#") = false ->
  split (strip line) DELIMITER =
    [chrom; start; end_; score; f5; f6; f7; f8; f9] ->
  py_int start = None \/ py_int end_ = None \/ py_float score = None ->
  classify line = Skipped type_coercion_failure.
Proof.
  intros Hh Hsplit Hf. unfold Parser.classify. rewrite Hh.
  destruct (eqb (strip line) []) eqn:Hb.
  - apply eqb_eq in Hb. rewrite Hb in Hsplit. discriminate.
  - cbn [orb]. rewrite Hsplit. cbn [as_row].
    destruct Hf as [Hf | [Hf | Hf]]; rewrite Hf;
      try reflexivity; destruct (py_int start); try reflexivity;
      destruct (py_int end_); reflexivity.
Qed.

(** What is logged about a line is logged under the line's number. *)
Lemma diagnostics_logged (folder : pystr) (pre post : list pystr)
    (line : pystr) (fuel : nat) (w w' : world) (vs : list value)
    (o : outcome) (e : level * message) :
  fs (path_join folder FILENAME) = Some (pre ++ line :: post) ->
  consume fuel (load_data folder) w = Some (vs, o, w') ->
  In e (diagnostics (Z.of_nat (List.length pre) + 1) line) ->
  In e (log w').
Proof.
  intros Hfs H Hin.
  pose proof (consume_load_data_world folder _ fuel w w' vs o Hfs H) as E.
  cbv zeta in E.
  set (fr0 := Frame (Z.max 1 (Z.of_nat (List.length (pre ++ line :: post))))
                0 [] (clock w (ticks w))) in *.
  set (w0 := World (clock w) (S (ticks w)) _) in *.
  assert (Hok0 : frame_ok fr0) by apply first_frame_ok.
  rewrite after_lines_app in E by assumption.
  destruct (after_lines_facts pre fr0 w0 Hok0)
    as (Hok1 & _ & Hc1 & _ & _ & _ & _ & _).
  set (fr1 := fst (after_lines fr0 pre w0)) in *.
  set (w1 := snd (after_lines fr0 pre w0)) in *.
  rewrite after_lines_cons in E by assumption.
  destruct (after_lines_facts post (step fr1 line)
              (say (diagnostics (count fr1 + 1) line)
                 (progressed (tick fr1) w1))
              (frame_ok_step py_int py_float fr1 line Hok1))
    as (_ & _ & _ & _ & _ & _ & [m Hm] & _).
  rewrite E. unfold say at 1. cbn [log]. rewrite Hm.
  apply in_or_app. left. apply in_or_app. left.
  unfold say. cbn [log]. apply in_or_app. right.
  rewrite Hc1. exact Hin.
Qed.


(** X8.  Every object a consumer receives is complete: an [_id] made of
    its own chromosome, start and end, and under the source tag the
    chromosome, the two integers and one score entry with the five
    remaining fields.  None of its strings contains a tab. *)
Theorem X8_objects_complete_and_tab_free
    (folder : pystr) (fuel : nat) (w w' : world) (vs : list value)
    (o : outcome) :
  consume fuel (load_data folder) w = Some (vs, o, w') ->
  Forall
    (fun v =>
       exists chrom s e x f5 f6 f7 f8 f9,
         v = VDict
               [ (lit "_id",
                  VStr (lit "chr" ++ chrom ++ lit ":g." ++ str_of_int s
                        ++ lit "_" ++ str_of_int e));
                 (lit "3dts",
                  VDict
                    [ (lit "chrom", VStr chrom);
                      (lit "start", VInt s);
                      (lit "end", VInt e);
                      (lit "scores",
                       VList
                         [ VDict
                             [ (lit "score", VFloat x);
                               (lit "pdb_id", VStr f5);
                               (lit "pdb_chain", VStr f6);
                               (lit "uniprot_feature_name", VStr f7);
                               (lit "pdb_residue_min", VStr f8);
                               (lit "pdb_residue_max", VStr f9) ] ]) ]) ] /\
         Forall (fun f => ~ In 9%N f) [chrom; f5; f6; f7; f8; f9])
    vs.
Proof.
  intros H.
  pose proof (consume_load_data py_int py_float fs _ _ _ _ _ _ H) as R.
  destruct (fs (path_join folder FILENAME)) as [lines |];
    [| destruct R as (-> & _); constructor].
  destruct R as (-> & _). clear H.
  induction lines as [| line lines IH]; [constructor |].
  rewrite (emitted_cons py_int py_float).
  destruct (yielded line) as [v |] eqn:Hy; [| exact IH].
  constructor; [| exact IH].
  destruct (yielded_entry line v Hy)
    as (chrom & start & end_ & score & f5 & f6 & f7 & f8 & f9 & s & e & x
        & Hsplit & _ & _ & _ & ->).
  exists (replace chrom (lit "chr") []), s, e, x, f5, f6, f7, f8, f9.
  split; [reflexivity |].
  pose proof (split_fields_no_sep 9%N (strip line)) as F.
  fold DELIMITER in F. rewrite Hsplit in F.
  repeat match goal with
         | H : Forall _ (_ :: _) |- _ => inversion H; clear H; subst
         end.
  repeat constructor; try assumption.
  intros Hin. apply replace_chr_In in Hin. contradiction.
Qed.

(** X9.  The folder may be given with or without a slash at its end:
    the generator behaves the same. *)
Theorem X9_trailing_slash_is_optional
    (folder : pystr) (c : N) (w : world) :
  c <> 47%N ->
  next (load_data ((folder ++ [c]) ++ [47%N])) w =
  next (load_data (folder ++ [c])) w.
Proof.
  intros Hc. cbn [Parser.next Parser.load_data].
  unfold Parser.prologue. now rewrite path_join_slash.
Qed.

(** *** The closing report *)

Lemma iteration_no_report (fr : frame) (line : pystr) (w : world) :
  frame_ok fr ->
  exists new,
    log (say (diagnostics (count fr + 1) line) (progressed (tick fr) w))
    = log w ++ new /\
    Forall (fun e => is_report e = false) new.
Proof.
  intros Hok. destruct (frame_ok_tick fr Hok) as [Hf Hc].
  pose proof (progressed_exact (tick fr) w Hf Hc) as Hp. cbv zeta in Hp.
  eexists. split.
  - unfold say. cbn [log]. rewrite Hp. cbn [log].
    rewrite <- app_assoc. reflexivity.
  - apply Forall_app. split.
    + destruct (count (tick fr) mod 10000 =? 0); repeat constructor.
    + unfold Parser.diagnostics.
      destruct (classify line) as [| []]; repeat constructor.
Qed.

Lemma resume_yield_no_report (file : list pystr) :
  forall fr w v g' w',
    frame_ok fr ->
    resume fr file w = (Yield v, g', w') ->
    exists new,
      log w' = log w ++ new /\ Forall (fun e => is_report e = false) new.
Proof.
  induction file as [| line rest IH]; intros fr w v g' w' Hok H.
  - rewrite (resume_nil py_int py_float) in H. discriminate.
  - rewrite (resume_cons py_int py_float fr line rest w Hok) in H.
    cbv zeta in H.
    destruct (iteration_no_report fr line w Hok) as (n1 & Hn1 & F1).
    destruct (yielded line) as [v0 |].
    + injection H as <- <- <-. now exists n1.
    + destruct (IH _ _ _ _ _ (frame_ok_step py_int py_float fr line Hok) H)
        as (n2 & Hn2 & F2).
      exists (n1 ++ n2). split.
      * rewrite Hn2, Hn1. now rewrite app_assoc.
      * apply Forall_app. now split.
Qed.

(** X11.  The closing report (how many lines were skipped, and which)
    is written only when the file is exhausted: a pull that yields has
    logged none of it, so a consumer that stops early never gets it. *)
Theorem X11_no_report_before_the_end
    (g g' : gen) (w w' : world) (v : value) :
  gen_ok g ->
  next g w = (Yield v, g', w') ->
  exists new,
    log w' = log w ++ new /\ Forall (fun e => is_report e = false) new.
Proof.
  intros Hok H. destruct g as [folder | fr file |]; cbn [Parser.next] in H.
  - destruct (fs (path_join folder FILENAME)) as [lines |] eqn:Hfs.
    + rewrite (prologue_found fs folder lines w Hfs) in H. cbv zeta in H.
      destruct (resume_yield_no_report _ _ _ _ _ _ (first_frame_ok _ _) H)
        as (new & Hnew & F).
      cbn [log] in Hnew. eexists. split.
      * rewrite Hnew, <- app_assoc. reflexivity.
      * apply Forall_app. split; [repeat constructor | exact F].
    + rewrite (prologue_missing fs folder w Hfs) in H. discriminate.
  - exact (resume_yield_no_report _ _ _ _ _ _ Hok H).
  - discriminate.
Qed.

End Beyond.

(** ** The progress messages

    In this section [next] and [consume] are those of [Full]. *)

Section Progress.

Variable py_int : pystr -> option Z.
Variable py_float : pystr -> option spec_float.
Variable disk : pystr -> option Full.file.

#[local] Set Warnings "-notation-for-abbreviation".
Local Notation classify := (classify py_int py_float).
Local Notation diagnostics := (diagnostics py_int py_float).
Local Notation yielded := (yielded py_int py_float).
Local Notation step := (step py_int py_float).
Local Notation emitted := (emitted py_int py_float).
Local Notation resume := (Full.resume py_int py_float).
Local Notation next := (Full.next py_int py_float disk).
Local Notation consume := (Full.consume py_int py_float disk).

(** *** Rounding *)

Lemma round_half_even_bounds (x : Q) :
  Qfloor x <= Full.round_half_even x <= Qfloor x + 1.
Proof.
  unfold Full.round_half_even.
  destruct (x - inject_Z (Qfloor x) ?= 1 # 2)%Q;
    [destruct (Z.even (Qfloor x)) | |]; lia.
Qed.

Lemma round_half_even_nonneg (x : Q) :
  (0 <= x)%Q -> 0 <= Full.round_half_even x.
Proof.
  intros H. pose proof (round_half_even_bounds x) as B.
  apply Qfloor_resp_le in H. change (Qfloor 0) with 0 in H. lia.
Qed.

Lemma round_half_even_le (x : Q) (n : Z) :
  (x <= inject_Z n)%Q -> Full.round_half_even x <= n.
Proof.
  intros H. pose proof (Qfloor_resp_le _ _ H) as F. rewrite Qfloor_Z in F.
  destruct (Z.eq_dec (Qfloor x) n) as [E | NE].
  - unfold Full.round_half_even. rewrite E.
    assert (L : (x - inject_Z n < 1 # 2)%Q).
    { apply Qle_lt_trans with 0%Q; [| reflexivity].
      apply Qle_minus_iff in H. apply Qle_minus_iff.
      setoid_replace (0 + - (x - inject_Z n))%Q
        with (inject_Z n + - x)%Q by ring.
      exact H. }
    assert (C : (x - inject_Z n ?= 1 # 2)%Q = Lt) by exact L.
    rewrite C. lia.
  - pose proof (round_half_even_bounds x). lia.
Qed.

(** *** What a message shows *)

Lemma percent_bounds (c n : Z) :
  1 <= c <= n ->
  (0 < inject_Z c / inject_Z n * 100)%Q /\
  (inject_Z c / inject_Z n * 100 <= 100)%Q.
Proof.
  intros H. destruct n as [| n | n]; try lia.
  unfold Qdiv, Qmult, Qinv, inject_Z, Qlt, Qle. simpl. lia.
Qed.

Lemma fixed2_percent_bounds (c n : Z) :
  1 <= c <= n ->
  (0 <= Full.fixed2 (inject_Z c / inject_Z n * 100))%Q /\
  (Full.fixed2 (inject_Z c / inject_Z n * 100) <= 100)%Q.
Proof.
  intros H. destruct (percent_bounds c n H) as [P0 P1].
  assert (R0 : 0 <= Full.round_half_even
                      (inject_Z c / inject_Z n * 100 * 100)).
  { apply round_half_even_nonneg. apply Qmult_le_0_compat; [| discriminate].
    now apply Qlt_le_weak. }
  assert (R1 : Full.round_half_even
                 (inject_Z c / inject_Z n * 100 * 100) <= 10000).
  { apply round_half_even_le.
    apply (Qmult_le_compat_r _ _ 100) in P1; [exact P1 | discriminate]. }
  unfold Full.fixed2, Qle. cbn [Qnum Qden]. lia.
Qed.

Lemma time_left_nonneg (c n : Z) (now start : Q) :
  1 <= c <= n -> (start <= now)%Q ->
  (0 <= Full.seconds_left start now c n)%Q.
Proof.
  intros H Hs. unfold Full.seconds_left. cbv zeta.
  assert (R : (0 < inject_Z c / inject_Z n)%Q /\
              (inject_Z c / inject_Z n <= 1)%Q).
  { destruct n as [| n | n]; try lia.
    unfold Qdiv, Qmult, Qinv, inject_Z, Qlt, Qle. simpl. lia. }
  destruct R as [R0 R1].
  unfold Qdiv at 1. apply Qmult_le_0_compat.
  - apply Qmult_le_0_compat.
    + unfold Qminus. now apply Qle_minus_iff in Hs.
    + unfold Qminus. now apply Qle_minus_iff in R1.
  - apply Qinv_le_0_compat. now apply Qlt_le_weak.
Qed.

Lemma shown_time_left_nonneg (seconds : Q) :
  (0 <= seconds)%Q ->
  (0 <= Full.str_of_timedelta (Full.microseconds seconds))%Q.
Proof.
  intros H. unfold Full.str_of_timedelta, Full.microseconds, Qle.
  cbn [Qnum Qden].
  assert (0 <= Full.round_half_even (seconds * 1000000)).
  { apply round_half_even_nonneg.
    apply Qmult_le_0_compat; [exact H | discriminate]. }
  lia.
Qed.

Lemma progress_message_sane (start now : Q) (c n : Z) (k : nat) :
  1 <= c <= n -> c mod 10000 = 0 -> Z.of_nat k < c ->
  Full.progress_sane n (Full.progress_message start now c n k) /\
  ((start <= now)%Q ->
   Full.estimate_nonneg (Full.progress_message start now c n k)).
Proof.
  intros Hc Hm Hk. destruct (fixed2_percent_bounds c n Hc) as [P0 P1].
  unfold Full.progress_sane, Full.estimate_nonneg, Full.progress_message.
  cbn [snd]. split; [now repeat split |].
  intros Hs. now apply shown_time_left_nonneg, time_left_nonneg.
Qed.

Lemma diagnostics_sane (total n : Z) (line : pystr) :
  Forall (Full.progress_sane total) (diagnostics n line) /\
  Forall Full.estimate_nonneg (diagnostics n line).
Proof.
  unfold Parser.diagnostics.
  destruct (classify line) as [| []]; split; repeat constructor.
Qed.

Lemma summary_sane (total n : Z) (l : list pystr) :
  Forall (Full.progress_sane total) (summary n l) /\
  Forall Full.estimate_nonneg (summary n l).
Proof.
  unfold summary. split; (constructor; [exact I |]);
    induction l; simpl; constructor; auto; exact I.
Qed.

(** *** The messages of a run *)

Lemma step_count (fr : frame) (line : pystr) :
  count (step fr line) = count fr + 1.
Proof. unfold Parser.step. now destruct (classify line). Qed.

Lemma step_start_time (fr : frame) (line : pystr) :
  start_time (step fr line) = start_time fr.
Proof. unfold Parser.step. now destruct (classify line). Qed.

Lemma step_skipped_length (fr : frame) (line : pystr) :
  Z.of_nat (List.length (skipped fr)) <= count fr ->
  Z.of_nat (List.length (skipped (step fr line))) <= count fr + 1.
Proof.
  unfold Parser.step. destruct (classify line); cbn;
    rewrite ?length_app; cbn; lia.
Qed.

(** The world an iteration leaves when its estimate is in range. *)
Lemma full_step_log (fr : frame) (line : pystr) (w : world) :
  frame_ok fr ->
  Full.in_range (Full.seconds_left (start_time fr) (clock w (ticks w))
                   (count fr + 1) (file_lines fr)) = true ->
  let w1 := say (diagnostics (count fr + 1) line)
              (Full.progressed (tick fr) w) in
  clock w1 = clock w /\ ticks w1 = S (ticks w) /\
  log w1 =
  log w
  ++ (if (count fr + 1) mod 10000 =? 0
      then [Full.progress_message (start_time fr) (clock w (ticks w))
              (count fr + 1) (file_lines fr) (List.length (skipped fr))]
      else [])
  ++ diagnostics (count fr + 1) line.
Proof.
  intros Hok Hr. destruct (frame_ok_tick fr Hok) as [Hf Hc].
  pose proof (full_progressed_exact (tick fr) w Hf Hc) as Hp.
  cbv zeta in Hp. cbn [tick count file_lines skipped start_time] in Hp.
  specialize (Hp Hr).
  cbv zeta. unfold say. rewrite Hp. cbn [clock ticks log].
  repeat split. now rewrite <- app_assoc.
Qed.

Lemma full_consume_progress (unread : list pystr) :
  forall fuel fr w ending vs o w',
    frame_ok fr ->
    count fr + Z.of_nat (List.length unread) <= file_lines fr ->
    Z.of_nat (List.length (skipped fr)) <= count fr ->
    consume fuel (Full.Suspended fr unread ending) w = Some (vs, o, w') ->
    exists new,
      log w' = log w ++ new /\
      Forall (Full.progress_sane (file_lines fr)) new /\
      (monotone (clock w) ->
       (exists t0, (t0 <= ticks w)%nat /\ start_time fr = clock w t0) ->
       Forall Full.estimate_nonneg new) /\
      (o = StopIteration ->
       forall c,
         count fr < c <= count fr + Z.of_nat (List.length unread) ->
         c mod 10000 = 0 ->
         exists k,
           In (Full.progress_message (start_time fr)
                 (clock w (ticks w + Z.to_nat (c - count fr - 1))) c
                 (file_lines fr) k) new).
Proof.
  induction unread as [| line rest IH];
    intros fuel fr w ending vs o w' Hok Hn Hk H;
    (destruct fuel as [| fuel]; [discriminate |]).
  - cbn [Full.consume Full.next] in H.
    rewrite full_resume_nil in H.
    destruct ending as [e |]; injection H as <- <- <-.
    + exists []. rewrite app_nil_r.
      split; [reflexivity | split; [constructor | split]];
        [intros _ _; constructor | discriminate].
    + destruct (summary_sane (file_lines fr) (file_lines fr) (skipped fr))
        as [Ss Se].
      exists (summary (file_lines fr) (skipped fr)).
      split; [reflexivity | split; [exact Ss | split]];
        [intros _ _; exact Se |].
      intros _ c Hc. cbn [List.length] in Hc. lia.
  - cbn [Full.consume Full.next] in H.
    rewrite (full_resume_cons py_int py_float fr line rest ending w Hok) in H.
    destruct (Full.in_range _) eqn:Hr.
    2:{ injection H as <- <- <-. exists []. cbn [log].
        rewrite app_nil_r.
        split; [reflexivity | split; [constructor | split]];
          [intros _ _; constructor | discriminate]. }
    cbv zeta in H.
    destruct (full_step_log fr line w Hok Hr) as (Hck & Hti & Hlog).
    cbv zeta in Hck, Hti, Hlog.
    set (w1 := say (diagnostics (count fr + 1) line)
                 (Full.progressed (tick fr) w)) in *.
    pose proof (frame_ok_step py_int py_float fr line Hok) as Hok'.
    cbn [List.length] in Hn.
    assert (Hn' : count (step fr line) + Z.of_nat (List.length rest)
                  <= file_lines (step fr line)).
    { rewrite step_count, step_file_lines. lia. }
    assert (Hk' : Z.of_nat (List.length (skipped (step fr line)))
                  <= count (step fr line)).
    { rewrite step_count. now apply step_skipped_length. }
    assert (E : exists fuel',
               consume fuel' (Full.Suspended (step fr line) rest ending) w1
               = Some (match yielded line with
                       | Some _ => tl vs
                       | None => vs
                       end, o, w')).
    { destruct (yielded line) as [v |].
      - destruct (Full.consume _ _ _ fuel _ _) as [[[vs0 o0] w0] |] eqn:E;
          [| discriminate].
        injection H as <- <- <-. exists fuel. exact E.
      - exists (S fuel). cbn [Full.consume Full.next]. exact H. }
    destruct E as [fuel' E].
    destruct (IH _ _ _ _ _ _ _ Hok' Hn' Hk' E)
      as (new & Hnew & Hsane & Heta & Hall).
    rewrite step_file_lines in Hsane.
    destruct (diagnostics_sane (file_lines fr) (count fr + 1) line)
      as [Ds De].
    assert (Hc1 : 1 <= count fr + 1 <= file_lines fr)
      by (destruct Hok; lia).
    assert (Hks : Z.of_nat (List.length (skipped fr)) < count fr + 1)
      by lia.
    eexists. split; [| split; [| split]].
    + rewrite Hnew, Hlog. rewrite <- !app_assoc. reflexivity.
    + apply Forall_app. split; [| apply Forall_app; now split].
      destruct (Z.eqb_spec ((count fr + 1) mod 10000) 0) as [Hm | _];
        constructor; [| constructor].
      apply progress_message_sane; assumption.
    + intros Hmono (t0 & Ht0 & Hst).
      apply Forall_app. split; [| apply Forall_app; split; [exact De |]].
      * destruct (Z.eqb_spec ((count fr + 1) mod 10000) 0) as [Hm | _];
          constructor; [| constructor].
        apply progress_message_sane; try assumption.
        rewrite Hst. now apply Hmono.
      * apply Heta.
        -- now rewrite Hck.
        -- exists t0. rewrite Hck, Hti, step_start_time.
           split; [lia | exact Hst].
    + intros Ho c Hc Hm. cbn [List.length] in Hc.
      destruct (Z.eq_dec c (count fr + 1)) as [-> | Hne].
      * exists (List.length (skipped fr)).
        apply in_or_app. left.
        apply Z.eqb_eq in Hm. rewrite Hm.
        replace (count fr + 1 - count fr - 1) with 0 by lia.
        cbn [Z.to_nat]. rewrite Nat.add_0_r. now left.
      * destruct (Hall Ho c) as [k Hin];
          [rewrite step_count; lia | exact Hm |].
        exists k. apply in_or_app. right. apply in_or_app. right.
        rewrite step_start_time, step_file_lines, step_count, Hck, Hti
          in Hin.
        replace (ticks w + Z.to_nat (c - count fr - 1))%nat
          with (S (ticks w) + Z.to_nat (c - (count fr + 1) - 1))%nat
          by lia.
        exact Hin.
Qed.


(** *** Clocks that keep the estimates in range *)

Lemma in_range_bounded (s : Q) :
  (0 <= s)%Q -> (s <= 86399999999999)%Q -> Full.in_range s = true.
Proof.
  intros H0 H1. unfold Full.in_range, Full.microseconds, Full.MAX_DELTA_DAYS.
  assert (U0 : 0 <= Full.round_half_even (s * 1000000)).
  { apply round_half_even_nonneg.
    apply Qmult_le_0_compat; [exact H0 | discriminate]. }
  assert (U1 : Full.round_half_even (s * 1000000) <= 86399999999999000000).
  { apply round_half_even_le.
    apply (Qmult_le_compat_r _ _ 1000000) in H1; [exact H1 | discriminate]. }
  cbv zeta. apply andb_true_iff. split; apply Z.leb_le.
  - transitivity 0; [lia | apply Z.div_pos; lia].
  - assert (Full.round_half_even (s * 1000000) / 86400000000 < 1000000000).
    { apply Z.div_lt_upper_bound; lia. }
    lia.
Qed.

Lemma seconds_left_le (start now B : Q) (c n : Z) :
  1 <= c <= n -> (start <= now)%Q -> (now - start <= B)%Q ->
  (Full.seconds_left start now c n <= B * inject_Z n)%Q.
Proof.
  intros H Hs Hb. unfold Full.seconds_left. cbv zeta.
  assert (R : (0 < inject_Z c / inject_Z n)%Q /\
              (inject_Z c / inject_Z n <= 1)%Q /\
              (1 <= inject_Z n * (inject_Z c / inject_Z n))%Q).
  { destruct n as [| n | n]; try lia.
    unfold Qdiv, Qmult, Qinv, inject_Z, Qlt, Qle. cbn [Qnum Qden].
    rewrite ?Pos.mul_1_l, ?Pos.mul_1_r, ?Z.mul_1_r, ?Z.mul_1_l. nia. }
  destruct R as (R0 & R1 & R2).
  assert (E0 : (0 <= now - start)%Q).
  { unfold Qminus. now apply Qle_minus_iff in Hs. }
  apply Qle_shift_div_r; [exact R0 |].
  apply Qle_trans with (B * 1)%Q.
  - apply Qmult_le_compat_nonneg; split; try assumption.
    + unfold Qminus. now apply Qle_minus_iff in R1.
    + apply Qle_minus_iff.
      setoid_replace (1 + - (1 - inject_Z c / inject_Z n))%Q
        with (inject_Z c / inject_Z n)%Q by ring.
      now apply Qlt_le_weak.
  - rewrite <- Qmult_assoc.
    apply Qmult_le_compat_nonneg; split.
    + now apply Qle_trans with (now - start)%Q.
    + apply Qle_refl.
    + discriminate.
    + exact R2.
Qed.

(** While the clock never reads less than the start time nor more than
    [B] seconds after it, and [B] times the number of lines counted is
    below the 999999999 days of a [timedelta], every estimate is in
    range. *)
Lemma timely_bounded (clock : nat -> Q) (B : Q) (n : nat) :
  forall t fr,
    frame_ok fr ->
    count fr + Z.of_nat n <= file_lines fr ->
    (forall i, (t <= i < t + n)%nat ->
               (start_time fr <= clock i)%Q /\
               (clock i - start_time fr <= B)%Q) ->
    (B * inject_Z (file_lines fr) <= 86399999999999)%Q ->
    Full.timely clock t fr n = true.
Proof.
  induction n as [| n IH]; intros t fr Hok Hn Hclock HB; [reflexivity |].
  cbn [Full.timely]. apply andb_true_iff.
  destruct (Hclock t) as [Hs Hb]; [lia |].
  assert (Hc : 1 <= count fr + 1 <= file_lines fr)
    by (destruct Hok; lia).
  split.
  - apply in_range_bounded.
    + now apply time_left_nonneg.
    + eapply Qle_trans; [| exact HB]. now apply seconds_left_le.
  - apply IH.
    + destruct Hok. unfold frame_ok. cbn. lia.
    + cbn [tick count file_lines]. lia.
    + intros i Hi. cbn [tick start_time]. apply Hclock. lia.
    + exact HB.
Qed.

End Progress.

(** * The further properties on the sample files *)

Lemma X1_witness :
  consume int_of_str float_of_str Sample.fs 1 (load_data (lit "empty"))
    Sample.w1 =
  Some ([], StopIteration,
        World (clock Sample.w1) 8
          [ (INFO, MsgStartCounting);
            (INFO, MsgStartCounting); (INFO, MsgTotalLines 1);
            (INFO, MsgStartReading FILENAME); (INFO, MsgCompleted 0 1) ]).
Proof.
  apply (X1_empty_file_run int_of_str float_of_str Sample.fs (lit "empty")
           0 Sample.w1).
  vm_compute. reflexivity.
Defined.

Lemma X2_witness :
  (exists fr' file',
      snd (fst (next int_of_str float_of_str Sample.fs
                  (Suspended Sample.fr0
                     [Sample.comment; Sample.good; Sample.blank])
                  Sample.w0))
      = Suspended fr' file' /\
      forall fr file,
        Suspended Sample.fr0 [Sample.comment; Sample.good; Sample.blank]
        = Suspended fr file ->
        (List.length file' < List.length file)%nat)
  /\ snd (fst (next int_of_str float_of_str Sample.fs
                 (Suspended Sample.fr0 [Sample.comment; Sample.blank])
                 Sample.w0))
     = Finished.
Proof.
  split.
  - apply (X2_pull_leaves_suspended_or_finished int_of_str float_of_str
             Sample.fs
             (Suspended Sample.fr0
                [Sample.comment; Sample.good; Sample.blank])
             (snd (fst (next int_of_str float_of_str Sample.fs
                          (Suspended Sample.fr0
                             [Sample.comment; Sample.good; Sample.blank])
                          Sample.w0)))
             Sample.w0
             (snd (next int_of_str float_of_str Sample.fs
                     (Suspended Sample.fr0
                        [Sample.comment; Sample.good; Sample.blank])
                     Sample.w0))
             (Yield (entry (lit "1") 100 200
                       (S754_finite false 4503599627370496 (-53))
                       (lit "PDB1") (lit "A") (lit "featX") (lit "10")
                       (lit "20")))).
    vm_compute. reflexivity.
  - apply (X2_pull_leaves_suspended_or_finished int_of_str float_of_str
             Sample.fs
             (Suspended Sample.fr0 [Sample.comment; Sample.blank])
             (snd (fst (next int_of_str float_of_str Sample.fs
                          (Suspended Sample.fr0
                             [Sample.comment; Sample.blank])
                          Sample.w0)))
             Sample.w0
             (snd (next int_of_str float_of_str Sample.fs
                     (Suspended Sample.fr0 [Sample.comment; Sample.blank])
                     Sample.w0))
             StopIteration).
    vm_compute. reflexivity.
Defined.

Lemma X3_witness :
  doc_id (entry (lit "1") 100 200
            (S754_finite false 4503599627370496 (-53))
            (lit "PDB1") (lit "A") (lit "featX") (lit "10") (lit "20"))
  = doc_id (entry (lit "X") 5 6
              (S754_finite false 4503599627370496 (-51))
              (lit "PDB2") (lit "B") (lit "featY") (lit "1") (lit "2"))
  <->
  doc_locus (entry (lit "1") 100 200
               (S754_finite false 4503599627370496 (-53))
               (lit "PDB1") (lit "A") (lit "featX") (lit "10") (lit "20"))
  = doc_locus (entry (lit "X") 5 6
                 (S754_finite false 4503599627370496 (-51))
                 (lit "PDB2") (lit "B") (lit "featY") (lit "1") (lit "2")).
Proof.
  apply (X3_same_id_iff_same_locus int_of_str float_of_str
           Sample.fr0 Sample.fr0 Sample.w0 Sample.w1
           Sample.good Sample.second);
    [exact fr0_ok | exact fr0_ok | vm_compute; reflexivity ..].
Defined.

Lemma X4_witness :
  handed (body int_of_str float_of_str Sample.fr0 Sample.good Sample.w0) =
  handed (body int_of_str float_of_str Sample.fr0 Run.plain Sample.w0)
  /\ handed (body int_of_str float_of_str Sample.fr0 Run.plain Sample.w0) =
     Some (entry (lit "1") 100 200
             (S754_finite false 4503599627370496 (-53))
             (lit "PDB1") (lit "A") (lit "featX") (lit "10") (lit "20")).
Proof.
  split; [| vm_compute; reflexivity].
  apply (X4_chr_prefix_optional int_of_str float_of_str Sample.fr0
           Sample.w0 Sample.good Run.plain (lit "1")
           (map lit ["100"; "200"; "0.5"; "PDB1"; "A"; "featX"; "10";
                     "20"]%string) fr0_ok);
    vm_compute; reflexivity.
Defined.

Lemma X5_witness :
  handed (body int_of_str float_of_str Sample.fr0 Run.padded Sample.w0) =
  handed (body int_of_str float_of_str Sample.fr0
            (join DELIMITER
               (map lit ["chr1"; "100"; "200"; "0.5"; "PDB1"; "A"; "featX";
                         "10"; "20"]%string))
            Sample.w0)
  /\ handed (body int_of_str float_of_str Sample.fr0 Run.padded Sample.w0) =
     Some (entry (lit "1") 100 200
             (S754_finite false 4503599627370496 (-53))
             (lit "PDB1") (lit "A") (lit "featX") (lit "10") (lit "20")).
Proof.
  split; [| vm_compute; reflexivity].
  apply (X5_surrounding_whitespace_ignored int_of_str float_of_str
           Sample.fr0 Sample.w0
           (join DELIMITER
              (map lit ["chr1"; "100"; "200"; "0.5"; "PDB1"; "A"; "featX";
                        "10"; "20"]%string))
           (lit "  ") [13%N; 10%N] fr0_ok).
  - vm_compute. reflexivity.
  - vm_compute. reflexivity.
  - right. vm_compute. reflexivity.
Defined.



Lemma X8_witness :
  Forall
    (fun v =>
       exists chrom s e x f5 f6 f7 f8 f9,
         v = VDict
               [ (lit "_id",
                  VStr (lit "chr" ++ chrom ++ lit ":g." ++ str_of_int s
                        ++ lit "_" ++ str_of_int e));
                 (lit "3dts",
                  VDict
                    [ (lit "chrom", VStr chrom);
                      (lit "start", VInt s);
                      (lit "end", VInt e);
                      (lit "scores",
                       VList
                         [ VDict
                             [ (lit "score", VFloat x);
                               (lit "pdb_id", VStr f5);
                               (lit "pdb_chain", VStr f6);
                               (lit "uniprot_feature_name", VStr f7);
                               (lit "pdb_residue_min", VStr f8);
                               (lit "pdb_residue_max", VStr f9) ] ]) ]) ] /\
         Forall (fun f => ~ In 9%N f) [chrom; f5; f6; f7; f8; f9])
    (fst (fst (Sample.result (Sample.run "data" Sample.w0)))).
Proof.
  apply (X8_objects_complete_and_tab_free int_of_str float_of_str Sample.fs
           (lit "data") 10 Sample.w0
           (snd (Sample.result (Sample.run "data" Sample.w0)))
           (fst (fst (Sample.result (Sample.run "data" Sample.w0))))
           (snd (fst (Sample.result (Sample.run "data" Sample.w0))))).
  vm_compute. reflexivity.
Defined.

Lemma X9_witness :
  next int_of_str float_of_str Sample.fs
    (load_data ((lit "dat" ++ [97%N]) ++ [47%N])) Sample.w0 =
  next int_of_str float_of_str Sample.fs
    (load_data (lit "dat" ++ [97%N])) Sample.w0
  /\ (lit "dat" ++ [97%N]) ++ [47%N] = lit "data/".
Proof.
  split; [| reflexivity].
  apply (X9_trailing_slash_is_optional int_of_str float_of_str Sample.fs
           (lit "dat") 97%N Sample.w0).
  discriminate.
Defined.

Lemma w0_monotone : monotone (clock Sample.w0).
Proof.
  intros i j Hij. unfold Sample.w0, Qle, inject_Z. simpl. lia.
Qed.

Lemma plenty_length : List.length Full.plenty = Z.to_nat 20000.
Proof. unfold Full.plenty. apply repeat_length. Qed.

Lemma plenty_on_disk :
  Full.sample_disk (path_join (lit "plenty") FILENAME)
  = Some (Full.readable Full.plenty).
Proof.
  unfold Full.sample_disk, Full.folders.
  generalize Full.long, Full.plenty. intros l m.
  vm_compute. reflexivity.
Qed.

(** Read once a second, the clock keeps the estimates over twenty
    thousand lines far below the range of a [timedelta]. *)
Lemma plenty_steady :
  Full.steady Sample.w0 (List.length Full.plenty) = true.
Proof.
  unfold Full.steady. rewrite plenty_length.
  apply (timely_bounded _ 20000).
  - apply first_frame_ok.
  - cbn [count file_lines]. lia.
  - intros i Hi. unfold Sample.w0 in *. cbn [start_time clock ticks] in *.
    unfold Qle, Qminus, Qplus, Qopp, inject_Z. cbn [Qnum Qden].
    change (Z.pos (1 * 1)) with 1. lia.
  - cbn [file_lines]. rewrite Z2Nat.id by lia. vm_compute. discriminate.
Qed.


Lemma X11_witness :
  exists new,
    log (snd (next int_of_str float_of_str Sample.fs
                (load_data (lit "data")) Sample.w0))
    = log Sample.w0 ++ new /\
    Forall (fun e => is_report e = false) new.
Proof.
  apply (X11_no_report_before_the_end int_of_str float_of_str Sample.fs
           (load_data (lit "data"))
           (snd (fst (next int_of_str float_of_str Sample.fs
                        (load_data (lit "data")) Sample.w0)))
           Sample.w0
           (snd (next int_of_str float_of_str Sample.fs
                   (load_data (lit "data")) Sample.w0))
           (entry (lit "1") 100 200
              (S754_finite false 4503599627370496 (-53))
              (lit "PDB1") (lit "A") (lit "featX") (lit "10") (lit "20"))).
  - exact I.
  - vm_compute. reflexivity.
Defined.
